(** * EEFC flash-controller driver (libs/atsam4-hal/c/efc.c, efc.h)

    A shallow embedding of the two RAM-resident primitives
    [efc_perform_read_sequence] and [efc_perform_fcr], together with the
    properties of the driver that the specification states.

    The C code talks to three memory-mapped registers and to ordinary
    memory.  Both are kept in one [machine] record; every access the code
    makes is appended to a bus log, so that statements such as "only the
    Status register is read" or "nothing was touched" can be read off the
    log.  The Status register is driven by the hardware: the machine
    carries the sequence of values the controller presents on successive
    reads, and the theorems quantify over all such sequences.

    The busy-wait loops have no bound in the source.  Each loop of the
    model receives a budget of iterations; a run that exhausts it is
    reported as [Running], carrying the machine reached so far. *)

From Stdlib Require Import ZArith List Bool Lia.
Import ListNotations.
Local Open Scope Z_scope.

(** ** Machine words *)

(** [uint32_t] arithmetic wraps modulo 2^32. *)
Definition uint32 (x : Z) : Z := x mod 2 ^ 32.

(** The null pointer. *)
Definition NULL : Z := 0.

(** ** efc.h: return codes and command codes *)

(** [enum efc_rc]: an enumerator without initialiser is one more than
    its predecessor, so [EFC_RC_INVALID] follows [EFC_RC_ERROR = 1]. *)
Definition EFC_RC_OK : Z := 0.
Definition EFC_RC_YES : Z := 0.
Definition EFC_RC_NO : Z := 1.
Definition EFC_RC_ERROR : Z := 1.
Definition EFC_RC_INVALID : Z := EFC_RC_ERROR + 1.
Definition EFC_RC_NOT_SUPPORT : Z := 0xFFFFFFFF.

Definition EFC_FCMD_GETD : Z := 0x00.
Definition EFC_FCMD_WP : Z := 0x01.
Definition EFC_FCMD_WPL : Z := 0x02.
Definition EFC_FCMD_EWP : Z := 0x03.
Definition EFC_FCMD_EWPL : Z := 0x04.
Definition EFC_FCMD_EA : Z := 0x05.
Definition EFC_FCMD_EPA : Z := 0x07.
Definition EFC_FCMD_SLB : Z := 0x08.
Definition EFC_FCMD_CLB : Z := 0x09.
Definition EFC_FCMD_GLB : Z := 0x0A.
Definition EFC_FCMD_SGPB : Z := 0x0B.
Definition EFC_FCMD_CGPB : Z := 0x0C.
Definition EFC_FCMD_GGPB : Z := 0x0D.
Definition EFC_FCMD_STUI : Z := 0x0E.
Definition EFC_FCMD_SPUI : Z := 0x0F.
Definition EFC_FCMD_ES : Z := 0x11.
Definition EFC_FCMD_WUS : Z := 0x12.
Definition EFC_FCMD_EUS : Z := 0x13.
Definition EFC_FCMD_STUS : Z := 0x14.
Definition EFC_FCMD_SPUS : Z := 0x15.

(** ** efc.c: the protection key *)

Definition FWP_KEY : Z := 0x5A.

(** ** component_efc.h: layout of the Command register *)

(** Modelled from the spec: the chip header component_efc.h is not among
    the sources.  The register table gives the Command register its key
    field in bits 31..24, with the fixed value 0x5A required on every
    write. *)
Definition EEFC_FCR_FKEY_Pos : Z := 24.

(** Modelled from the spec: mask of the key field, bits 31..24
    (component_efc.h is missing). *)
Definition EEFC_FCR_FKEY_Msk : Z := Z.shiftl 0xFF EEFC_FCR_FKEY_Pos.

(** Modelled from the spec: the key field holding the protection key
    (component_efc.h is missing). *)
Definition EEFC_FCR_FKEY_PASSWD : Z := Z.shiftl FWP_KEY EEFC_FCR_FKEY_Pos.

(** Modelled from the spec: the command code occupies bits 7..0 of the
    Command register (component_efc.h is missing). *)
Definition EEFC_FCR_FCMD_Pos : Z := 0.

(** Modelled from the spec: mask of the command-code field, bits 7..0
    (component_efc.h is missing). *)
Definition EEFC_FCR_FCMD_Msk : Z := Z.shiftl 0xFF EEFC_FCR_FCMD_Pos.

(** efc.c: [#define EEFC_FCR_FCMD(value)
    ((EEFC_FCR_FCMD_Msk & ((value) << EEFC_FCR_FCMD_Pos)))]. *)
Definition EEFC_FCR_FCMD (value : Z) : Z :=
  Z.land EEFC_FCR_FCMD_Msk (Z.shiftl value EEFC_FCR_FCMD_Pos).

(** Decoding of a command word, used to state what a write carries. *)
Definition fcr_key (w : Z) : Z :=
  Z.shiftr (Z.land w EEFC_FCR_FKEY_Msk) EEFC_FCR_FKEY_Pos.
Definition fcr_cmd (w : Z) : Z :=
  Z.shiftr (Z.land w EEFC_FCR_FCMD_Msk) EEFC_FCR_FCMD_Pos.
(** Everything between the command code and the key: the argument. *)
Definition fcr_arg (w : Z) : Z :=
  Z.shiftr (Z.land w (Z.shiftl 0xFFFF 8)) 8.

(** ** The machine *)

(** The three registers of the [Efc] block the driver uses. *)
Inductive efc_reg : Type :=
| FMR   (* Mode *)
| FCR   (* Command *)
| FSR.  (* Status *)

(** One access on the bus: to a register of the block, or to a word of
    memory at an address. *)
Inductive access : Type :=
| RegRead (r : efc_reg) (v : Z)
| RegWrite (r : efc_reg) (v : Z)
| Load (a : Z) (v : Z)
| Store (a : Z) (v : Z).

(** [EEFC_FMR] is a read/write configuration register: it holds what was
    last written.  [EEFC_FCR] is write-only: the record keeps the last
    command word.  [EEFC_FSR] is read-only and owned by the hardware:
    [EEFC_FSR k] is the value the [k]-th read of the register returns,
    and [polls] counts the reads made so far.  A controller that reacts
    to the commands written to it still presents, in any one run, one
    such sequence.  [mem] maps the address of an aligned word to its
    content: the buffer and the read window live in the same address
    space and may overlap.  [bus] is the log of accesses, oldest
    first. *)
Record machine : Type := mkMachine {
  EEFC_FMR : Z;
  EEFC_FCR : Z;
  EEFC_FSR : nat -> Z;
  polls : nat;
  mem : Z -> Z;
  bus : list access
}.

Definition log (e : access) (m : machine) : machine :=
  mkMachine (EEFC_FMR m) (EEFC_FCR m) (EEFC_FSR m) (polls m) (mem m)
            (bus m ++ [e]).

Definition set_FMR (v : Z) (m : machine) : machine :=
  mkMachine v (EEFC_FCR m) (EEFC_FSR m) (polls m) (mem m) (bus m).

Definition set_FCR (v : Z) (m : machine) : machine :=
  mkMachine (EEFC_FMR m) v (EEFC_FSR m) (polls m) (mem m) (bus m).

Definition tick (m : machine) : machine :=
  mkMachine (EEFC_FMR m) (EEFC_FCR m) (EEFC_FSR m) (S (polls m)) (mem m)
            (bus m).

Definition set_mem (a v : Z) (m : machine) : machine :=
  mkMachine (EEFC_FMR m) (EEFC_FCR m) (EEFC_FSR m) (polls m)
            (fun a' => if a' =? a then v else mem m a') (bus m).

(** ** Computations *)

(** A computation either returns a value, or is still inside a loop when
    its budget of iterations ends. *)
Inductive outcome (A : Type) : Type :=
| Returned (a : A) (m : machine)
| Running (m : machine).
Arguments Returned {A} a m.
Arguments Running {A} m.

Definition machine_of {A : Type} (o : outcome A) : machine :=
  match o with
  | Returned _ m => m
  | Running m => m
  end.

Definition M (A : Type) : Type := machine -> outcome A.

Definition ret {A : Type} (a : A) : M A := fun m => Returned a m.

Definition bind {A B : Type} (c : M A) (k : A -> M B) : M B :=
  fun m =>
    match c m with
    | Returned a m' => k a m'
    | Running m' => Running m'
    end.

Notation "x <- c ;; k" := (bind c (fun x => k))
  (at level 61, c at next level, right associativity).
Notation "c ;;; k" := (bind c (fun _ => k))
  (at level 61, right associativity).

(** Register and memory accesses. *)
Definition read_FMR : M Z :=
  fun m => Returned (EEFC_FMR m) (log (RegRead FMR (EEFC_FMR m)) m).

Definition write_FMR (v : Z) : M unit :=
  fun m => Returned tt (log (RegWrite FMR v) (set_FMR v m)).

Definition write_FCR (v : Z) : M unit :=
  fun m => Returned tt (log (RegWrite FCR v) (set_FCR v m)).

Definition read_FSR : M Z :=
  fun m =>
    let v := EEFC_FSR m (polls m) in
    Returned v (log (RegRead FSR v) (tick m)).

Definition load (a : Z) : M Z :=
  fun m => Returned (mem m a) (log (Load a (mem m a)) m).

Definition store (a v : Z) : M unit :=
  fun m => Returned tt (log (Store a v) (set_mem a v m)).

(** [do { ul_status = p_efc->EEFC_FSR; } while (again ul_status);]
    yields the last status read. *)
Fixpoint do_while_FSR (fuel : nat) (again : Z -> bool) : M Z :=
  match fuel with
  | O => fun m => Running m
  | S fuel' =>
      ul_status <- read_FSR ;;
      if again ul_status then do_while_FSR fuel' again else ret ul_status
  end.

(** [for (; ul_cnt < ul_size; ul_cnt++) p_ul_buf[ul_cnt] = p_ul_data[ul_cnt];]
    Both pointers are [uint32_t *], hence word-aligned: element [ul_cnt]
    lies 4 * ul_cnt bytes after the base.  The counter is a [uint32_t]
    and wraps; addresses are those of C objects and are not reduced
    modulo 2^32, an array never extending past the end of the address
    space. *)
Fixpoint for_copy (fuel : nat) (p_ul_buf ul_size p_ul_data ul_cnt : Z)
  : M unit :=
  match fuel with
  | O => fun m => Running m
  | S fuel' =>
      if ul_cnt <? ul_size then
        v <- load (p_ul_data + 4 * ul_cnt) ;;
        store (p_ul_buf + 4 * ul_cnt) v ;;;
        for_copy fuel' p_ul_buf ul_size p_ul_data (uint32 (ul_cnt + 1))
      else ret tt
  end.

(** The part of component_efc.h the specification leaves open: the flags
    of the Status register and the argument field of the Command
    register.  The header is not among the sources, so the driver is
    verified for every choice of these constants. *)
Record component_efc : Type := mkHeader {
  EEFC_FSR_FRDY : Z;
  EEFC_FSR_FCMDE : Z;
  EEFC_FSR_FLOCKE : Z;
  EEFC_FSR_FLERR : Z;
  EEFC_FCR_FARG_Pos : Z;
  EEFC_FCR_FARG_Msk : Z
}.

Section Driver.

Variable h : component_efc.

(** The header's [EEFC_FCR_FARG(value)] has the same shape as
    [EEFC_FCR_FCMD]. *)
Definition EEFC_FCR_FARG (value : Z) : Z :=
  Z.land (EEFC_FCR_FARG_Msk h) (Z.shiftl value (EEFC_FCR_FARG_Pos h)).

(** efc.c: [#define EEFC_ERROR_FLAGS
    (EEFC_FSR_FLOCKE | EEFC_FSR_FCMDE | EEFC_FSR_FLERR)]. *)
Definition EEFC_ERROR_FLAGS : Z :=
  Z.lor (Z.lor (EEFC_FSR_FLOCKE h) (EEFC_FSR_FCMDE h)) (EEFC_FSR_FLERR h).

(** [(ul_status & EEFC_FSR_FRDY) == EEFC_FSR_FRDY] *)
Definition frdy (ul_status : Z) : bool :=
  Z.land ul_status (EEFC_FSR_FRDY h) =? EEFC_FSR_FRDY h.

(** The command word both writes of the read sequence build:
    [EEFC_FCR_FKEY_PASSWD | EEFC_FCR_FARG(0) | EEFC_FCR_FCMD(ul_cmd)]. *)
Definition fcr_word (ul_cmd : Z) : Z :=
  Z.lor (Z.lor EEFC_FCR_FKEY_PASSWD (EEFC_FCR_FARG 0))
        (EEFC_FCR_FCMD ul_cmd).

Definition efc_perform_read_sequence (fuel : nat)
  (ul_cmd_st ul_cmd_sp p_ul_buf ul_size p_ul_data : Z) : M Z :=
  if p_ul_buf =? NULL then ret EFC_RC_INVALID
  else
    fmr <- read_FMR ;;
    write_FMR (Z.lor fmr (Z.shiftl 1 16)) ;;;
    (* Send the Start Read command *)
    write_FCR (fcr_word ul_cmd_st) ;;;
    (* Wait for FRDY to fall *)
    _ <- do_while_FSR fuel (fun ul_status => frdy ul_status) ;;
    for_copy fuel p_ul_buf ul_size p_ul_data 0 ;;;
    (* To stop the read mode *)
    write_FCR (fcr_word ul_cmd_sp) ;;;
    (* Wait for FRDY to rise *)
    _ <- do_while_FSR fuel (fun ul_status => negb (frdy ul_status)) ;;
    fmr <- read_FMR ;;
    write_FMR (Z.land fmr (uint32 (Z.lnot (Z.shiftl 1 16)))) ;;;
    ret EFC_RC_OK.

Definition efc_perform_fcr (fuel : nat) (ul_fcr : Z) : M Z :=
  write_FCR ul_fcr ;;;
  ul_status <- do_while_FSR fuel (fun ul_status => negb (frdy ul_status)) ;;
  ret (Z.land ul_status EEFC_ERROR_FLAGS).

(** *** The stages of a read sequence

    The machine after each step of [efc_perform_read_sequence], as the
    code itself produces it. *)

(** Mode bit set and start command written. *)
Definition start_issued (ul_cmd_st : Z) (m : machine) : machine :=
  machine_of
    ((fmr <- read_FMR ;;
      write_FMR (Z.lor fmr (Z.shiftl 1 16)) ;;;
      write_FCR (fcr_word ul_cmd_st)) m).

(** Stop command written. *)
Definition stop_issued (ul_cmd_sp : Z) (m : machine) : machine :=
  machine_of (write_FCR (fcr_word ul_cmd_sp) m).

(** Mode bit cleared. *)
Definition read_mode_left (m : machine) : machine :=
  machine_of
    ((fmr <- read_FMR ;;
      write_FMR (Z.land fmr (uint32 (Z.lnot (Z.shiftl 1 16))))) m).

End Driver.

(** ** Describing runs *)

(** One read of the Status register. *)
Definition poll1 (m : machine) : machine :=
  log (RegRead FSR (EEFC_FSR m (polls m))) (tick m).

(** The machine after [j] reads of the Status register. *)
Fixpoint after_polls (j : nat) (m : machine) : machine :=
  match j with
  | O => m
  | S j' => after_polls j' (poll1 m)
  end.

(** The bus accesses of [j] reads of the Status register from [m]. *)
Definition status_reads (m : machine) (j : nat) : list access :=
  map (fun k => RegRead FSR (EEFC_FSR m (polls m + k)%nat)) (seq 0 j).

(** One pass through the body of the copy loop. *)
Definition copy1 (p_ul_buf p_ul_data ul_cnt : Z) (m : machine) : machine :=
  machine_of
    ((v <- load (p_ul_data + 4 * ul_cnt) ;;
      store (p_ul_buf + 4 * ul_cnt) v) m).

(** The machine after [k] passes, starting at index [ul_cnt]. *)
Fixpoint after_copy (k : nat) (p_ul_buf p_ul_data ul_cnt : Z) (m : machine)
  : machine :=
  match k with
  | O => m
  | S k' =>
      after_copy k' p_ul_buf p_ul_data (ul_cnt + 1)
                 (copy1 p_ul_buf p_ul_data ul_cnt m)
  end.

(** The bus accesses of copying the words [vs] to indices [ul_cnt],
    [ul_cnt + 1], ...: each word is loaded from the source and the same
    word is stored to the destination, index by index. *)
Fixpoint copy_log (p_ul_buf p_ul_data ul_cnt : Z) (vs : list Z)
  : list access :=
  match vs with
  | [] => []
  | v :: vs' =>
      Load (p_ul_data + 4 * ul_cnt) v
      :: Store (p_ul_buf + 4 * ul_cnt) v
      :: copy_log p_ul_buf p_ul_data (ul_cnt + 1) vs'
  end.

(** The [n] words at [p], as memory [f] holds them. *)
Definition words (f : Z -> Z) (p : Z) (n : nat) : list Z :=
  map (fun i => f (p + 4 * Z.of_nat i)) (seq 0 n).

(** Two arrays of [n] words that do not overlap. *)
Definition separate (p q n : Z) : Prop :=
  p + 4 * n <= q \/ q + 4 * n <= p.

(** The writes to the Command register among some accesses. *)
Fixpoint fcr_writes (l : list access) : list Z :=
  match l with
  | [] => []
  | RegWrite FCR v :: l' => v :: fcr_writes l'
  | _ :: l' => fcr_writes l'
  end.

(** Whether an access goes to memory rather than to a register. *)
Definition is_mem (e : access) : bool :=
  match e with
  | Load _ _ | Store _ _ => true
  | _ => false
  end.

(** Whether an access is a read of the Status register. *)
Definition is_status_read (e : access) : bool :=
  match e with
  | RegRead FSR _ => true
  | _ => false
  end.

(** What the accesses of the copy loop may be: loads of source words and
    stores to destination words, at indices below [ul_size]. *)
Definition copy_access (p_ul_buf ul_size p_ul_data : Z) (e : access) : Prop :=
  match e with
  | Load a _ => exists i, 0 <= i < ul_size /\ a = p_ul_data + 4 * i
  | Store a _ => exists i, 0 <= i < ul_size /\ a = p_ul_buf + 4 * i
  | _ => False
  end.

(** The machine a read sequence leaves behind when the first loop makes
    [S j1] polls and the second [S j2]. *)
Definition read_sequence_done (h : component_efc)
  (ul_cmd_st ul_cmd_sp p_ul_buf ul_size p_ul_data : Z) (j1 j2 : nat)
  (m : machine) : machine :=
  read_mode_left
    (after_polls (S j2)
       (stop_issued h ul_cmd_sp
          (after_copy (Z.to_nat ul_size) p_ul_buf p_ul_data 0
             (after_polls (S j1) (start_issued h ul_cmd_st m))))).

(** The accesses that enter the special read mode and issue the start
    command. *)
Definition entry_log (h : component_efc) (ul_cmd_st : Z) (m : machine)
  : list access :=
  [RegRead FMR (EEFC_FMR m);
   RegWrite FMR (Z.lor (EEFC_FMR m) (Z.shiftl 1 16));
   RegWrite FCR (fcr_word h ul_cmd_st)].

(** The accesses that leave the special read mode. *)
Definition exit_log (m : machine) : list access :=
  [RegRead FMR (Z.lor (EEFC_FMR m) (Z.shiftl 1 16));
   RegWrite FMR (Z.land (Z.lor (EEFC_FMR m) (Z.shiftl 1 16))
                        (uint32 (Z.lnot (Z.shiftl 1 16))))].

(** The accesses of a read sequence that returns, in order, when it
    copies the words [vs]. *)
Definition read_sequence_log (h : component_efc)
  (ul_cmd_st ul_cmd_sp p_ul_buf p_ul_data : Z) (j1 j2 : nat) (vs : list Z)
  (m : machine) : list access :=
  entry_log h ul_cmd_st m
  ++ status_reads m (S j1)
  ++ copy_log p_ul_buf p_ul_data 0 vs
  ++ RegWrite FCR (fcr_word h ul_cmd_sp)
     :: status_reads (after_polls (S j1) m) (S j2)
  ++ exit_log m.

(** FRDY stays set for [j] polls from [m] on and is clear at the next:
    the falling edge. *)
Definition falls_after (h : component_efc) (m : machine) (j : nat) : Prop :=
  (forall k, (k < j)%nat -> frdy h (EEFC_FSR m (polls m + k)%nat) = true) /\
  frdy h (EEFC_FSR m (polls m + j)%nat) = false.

(** FRDY stays clear for [j] polls from [m] on and is set at the next:
    the rising edge. *)
Definition rises_after (h : component_efc) (m : machine) (j : nat) : Prop :=
  (forall k, (k < j)%nat -> frdy h (EEFC_FSR m (polls m + k)%nat) = false) /\
  frdy h (EEFC_FSR m (polls m + j)%nat) = true.

(** The machine once [efc_perform_fcr] has written its command word. *)
Definition command_issued (ul_fcr : Z) (m : machine) : machine :=
  machine_of (write_FCR ul_fcr m).

(** A store, if the access is one, goes to one of the first [ul_size]
    words of the buffer. *)
Definition store_within (p_ul_buf ul_size : Z) (e : access) : Prop :=
  match e with
  | Store a _ => exists i, 0 <= i < ul_size /\ a = p_ul_buf + 4 * i
  | _ => True
  end.

(** ** A concrete chip and concrete runs *)

(** The Status flags and argument field of the SAM4 family: FRDY is
    bit 0, FCMDE bit 1, FLOCKE bit 2, FLERR bit 3, and the argument
    occupies bits 23..8 of the Command register. *)
Definition sam4 : component_efc :=
  mkHeader 1 2 4 8 8 (Z.shiftl 0xFFFF 8).

(** A controller that drops FRDY on the first poll and raises it on the
    third. *)
Definition responsive (k : nat) : Z :=
  match k with
  | O => 0
  | 1%nat => 0
  | _ => 1
  end.

(** A controller whose FRDY never falls. *)
Definition always_ready (k : nat) : Z := 1.

(** A controller whose FRDY is clear at every poll. *)
Definition never_ready (k : nat) : Z := 0.

(** A controller that is busy for two polls and then reports a lock
    error together with FRDY. *)
Definition lock_error (k : nat) : Z :=
  match k with
  | O => 0
  | 1%nat => 0
  | _ => 5
  end.

(** Memory holding the words 0x11, 0x22, 0x33, 0x44 at the read window
    0x00400000 and zero elsewhere. *)
Definition flash_window (a : Z) : Z :=
  if a =? 0x00400000 then 0x11
  else if a =? 0x00400004 then 0x22
  else if a =? 0x00400008 then 0x33
  else if a =? 0x0040000C then 0x44
  else 0.

(** An idle machine: Mode register [fmr], no access made yet. *)
Definition idle (fmr : Z) (fsr : nat -> Z) : machine :=
  mkMachine fmr 0 fsr 0 flash_window [].

(** A four-word buffer in RAM and the flash read window. *)
Definition ram_buffer : Z := 0x20000000.
Definition read_window : Z := 0x00400000.

(** Reading the unique identifier on the SAM4, each loop being given
    eight iterations. *)
Definition read_unique_id (m : machine) : outcome Z :=
  efc_perform_read_sequence sam4 8 EFC_FCMD_STUI EFC_FCMD_SPUI
                            ram_buffer 4 read_window m.

(** A machine that has already polled three times, with another Mode
    register, whose controller presents from then on what [lock_error]
    presents from the start. *)
Definition later_lock_error : machine :=
  mkMachine 0x10000 0 (fun k => lock_error (k - 3)) 3 flash_window [].

(** Set Lock Bit for page 1, encoded by the caller. *)
Definition set_lock_bit_1 : Z := 0x5A000108.

(** efc.h: the command codes, in the order of the header. *)
Definition efc_fcmd_codes : list Z :=
  [EFC_FCMD_GETD; EFC_FCMD_WP; EFC_FCMD_WPL; EFC_FCMD_EWP; EFC_FCMD_EWPL;
   EFC_FCMD_EA; EFC_FCMD_EPA; EFC_FCMD_SLB; EFC_FCMD_CLB; EFC_FCMD_GLB;
   EFC_FCMD_SGPB; EFC_FCMD_CGPB; EFC_FCMD_GGPB; EFC_FCMD_STUI;
   EFC_FCMD_SPUI; EFC_FCMD_ES; EFC_FCMD_WUS; EFC_FCMD_EUS; EFC_FCMD_STUS;
   EFC_FCMD_SPUS].

(** A controller with the FRDY behaviour of [responsive] that also
    raises error flags: FCMDE while busy, all three with FRDY. *)
Definition responsive_with_errors (k : nat) : Z :=
  match k with
  | O => 2
  | 1%nat => 8
  | _ => 15
  end.

(** A controller that answers two read sequences in a row: FRDY is set
    at the third and at the sixth poll only. *)
Definition responsive_twice (k : nat) : Z :=
  match k with
  | 2%nat | 5%nat => 1
  | _ => 0
  end.

(** A buffer that starts one word above the read window. *)
Definition shifted_buffer : Z := read_window + 4.

(** * Properties *)

(** ** Reads of the Status register *)

Lemma after_polls_fields (j : nat) : forall m,
  EEFC_FMR (after_polls j m) = EEFC_FMR m /\
  EEFC_FCR (after_polls j m) = EEFC_FCR m /\
  EEFC_FSR (after_polls j m) = EEFC_FSR m /\
  polls (after_polls j m) = (polls m + j)%nat /\
  mem (after_polls j m) = mem m.
Proof.
  induction j as [|j IH]; intro m; simpl.
  - repeat split. lia.
  - destruct (IH (poll1 m)) as (H1 & H2 & H3 & H4 & H5).
    rewrite H1, H2, H3, H4, H5. simpl. repeat split. lia.
Qed.

Lemma status_reads_S (m : machine) (j : nat) :
  status_reads m (S j) =
  RegRead FSR (EEFC_FSR m (polls m)) :: status_reads (poll1 m) j.
Proof.
  unfold status_reads. simpl. rewrite Nat.add_0_r. f_equal.
  rewrite <- seq_shift, map_map. apply map_ext. intro k.
  do 2 f_equal. lia.
Qed.

Lemma after_polls_bus (j : nat) : forall m,
  bus (after_polls j m) = bus m ++ status_reads m j.
Proof.
  induction j as [|j IH]; intro m.
  - simpl. unfold status_reads. simpl. now rewrite app_nil_r.
  - simpl after_polls. rewrite IH, status_reads_S. simpl.
    now rewrite <- app_assoc.
Qed.

Lemma status_reads_only (m : machine) (j : nat) :
  forallb is_status_read (status_reads m j) = true.
Proof.
  unfold status_reads. apply forallb_forall. intros e He.
  apply in_map_iff in He. destruct He as (k & <- & _). reflexivity.
Qed.

Lemma status_reads_no_fcr (m : machine) (j : nat) :
  fcr_writes (status_reads m j) = [].
Proof.
  unfold status_reads. induction (seq 0 j) as [|k l IH]; simpl; auto.
Qed.

Lemma status_reads_no_mem (m : machine) (j : nat) :
  existsb is_mem (status_reads m j) = false.
Proof.
  unfold status_reads. induction (seq 0 j) as [|k l IH]; simpl; auto.
Qed.

Lemma do_while_FSR_S (again : Z -> bool) (fuel : nat) (m : machine) :
  do_while_FSR (S fuel) again m =
  if again (EEFC_FSR m (polls m))
  then do_while_FSR fuel again (poll1 m)
  else Returned (EEFC_FSR m (polls m)) (poll1 m).
Proof.
  simpl. unfold bind, read_FSR. cbn zeta.
  destruct (again (EEFC_FSR m (polls m))); reflexivity.
Qed.

(** The loop leaves at the first status for which [again] fails. *)
Lemma do_while_exit (again : Z -> bool) (j : nat) : forall fuel m,
  (forall k, (k < j)%nat -> again (EEFC_FSR m (polls m + k)%nat) = true) ->
  again (EEFC_FSR m (polls m + j)%nat) = false ->
  (j < fuel)%nat ->
  do_while_FSR fuel again m =
  Returned (EEFC_FSR m (polls m + j)%nat) (after_polls (S j) m).
Proof.
  induction j as [|j IH]; intros fuel m Hbefore Hat Hfuel;
    (destruct fuel as [|fuel]; [lia|]); rewrite do_while_FSR_S.
  - rewrite Nat.add_0_r in Hat |- *. rewrite Hat. reflexivity.
  - generalize (Hbefore 0%nat ltac:(lia)). rewrite Nat.add_0_r. intros ->.
    rewrite (IH fuel (poll1 m)); simpl.
    + do 2 f_equal. lia.
    + intros k Hk. rewrite <- Nat.add_succ_r. apply Hbefore. lia.
    + rewrite <- Nat.add_succ_r. exact Hat.
    + lia.
Qed.

(** While [again] holds the loop stays in place. *)
Lemma do_while_stuck (again : Z -> bool) : forall fuel m,
  (forall k, (k < fuel)%nat -> again (EEFC_FSR m (polls m + k)%nat) = true) ->
  do_while_FSR fuel again m = Running (after_polls fuel m).
Proof.
  induction fuel as [|fuel IH]; intros m Hall.
  - reflexivity.
  - rewrite do_while_FSR_S.
    generalize (Hall 0%nat ltac:(lia)). rewrite Nat.add_0_r. intros ->.
    apply IH. intros k Hk. simpl. rewrite <- Nat.add_succ_r.
    apply Hall. lia.
Qed.

(** Every run of the loop is one of the two above. *)
Lemma do_while_cases (again : Z -> bool) : forall fuel m,
  (exists j, (j < fuel)%nat /\
     (forall k, (k < j)%nat -> again (EEFC_FSR m (polls m + k)%nat) = true) /\
     again (EEFC_FSR m (polls m + j)%nat) = false /\
     do_while_FSR fuel again m =
     Returned (EEFC_FSR m (polls m + j)%nat) (after_polls (S j) m))
  \/ ((forall k, (k < fuel)%nat ->
         again (EEFC_FSR m (polls m + k)%nat) = true) /\
      do_while_FSR fuel again m = Running (after_polls fuel m)).
Proof.
  intros fuel m.
  assert (Hdec : forall n,
    (exists j, (j < n)%nat /\
       (forall k, (k < j)%nat ->
          again (EEFC_FSR m (polls m + k)%nat) = true) /\
       again (EEFC_FSR m (polls m + j)%nat) = false)
    \/ (forall k, (k < n)%nat ->
          again (EEFC_FSR m (polls m + k)%nat) = true)).
  { induction n as [|n IHn].
    - right. intros k Hk. lia.
    - destruct IHn as [(j & Hj & Hb & Ha) | Hall].
      + left. exists j. repeat split; auto.
      + destruct (again (EEFC_FSR m (polls m + n)%nat)) eqn:E.
        * right. intros k Hk.
          destruct (Nat.eq_dec k n) as [->|]; [exact E | apply Hall; lia].
        * left. exists n. repeat split; auto. }
  destruct (Hdec fuel) as [(j & Hj & Hb & Ha) | Hall].
  - left. exists j. repeat split; auto. now apply do_while_exit.
  - right. split; auto. now apply do_while_stuck.
Qed.

Lemma do_while_machine (again : Z -> bool) (fuel : nat) (m : machine) :
  exists j, (j <= fuel)%nat /\
    machine_of (do_while_FSR fuel again m) = after_polls j m.
Proof.
  destruct (do_while_cases again fuel m) as [(j & Hj & _ & _ & E) | (_ & E)];
    rewrite E; simpl.
  - exists (S j). split; [lia | reflexivity].
  - exists fuel. split; [lia | reflexivity].
Qed.

(** ** The copy loop *)

Lemma for_copy_S (fuel : nat) (p_ul_buf ul_size p_ul_data ul_cnt : Z)
  (m : machine) :
  for_copy (S fuel) p_ul_buf ul_size p_ul_data ul_cnt m =
  if ul_cnt <? ul_size
  then for_copy fuel p_ul_buf ul_size p_ul_data (uint32 (ul_cnt + 1))
                (copy1 p_ul_buf p_ul_data ul_cnt m)
  else Returned tt m.
Proof. simpl. destruct (ul_cnt <? ul_size); reflexivity. Qed.

Lemma copy1_mem (p_ul_buf p_ul_data ul_cnt : Z) (m : machine) (a : Z) :
  mem (copy1 p_ul_buf p_ul_data ul_cnt m) a =
  if a =? p_ul_buf + 4 * ul_cnt then mem m (p_ul_data + 4 * ul_cnt)
  else mem m a.
Proof. reflexivity. Qed.

Lemma copy1_bus (p_ul_buf p_ul_data ul_cnt : Z) (m : machine) :
  bus (copy1 p_ul_buf p_ul_data ul_cnt m) =
  bus m ++ [Load (p_ul_data + 4 * ul_cnt) (mem m (p_ul_data + 4 * ul_cnt));
            Store (p_ul_buf + 4 * ul_cnt) (mem m (p_ul_data + 4 * ul_cnt))].
Proof. simpl. now rewrite <- app_assoc. Qed.

Lemma uint32_small (x : Z) : 0 <= x < 2 ^ 32 -> uint32 x = x.
Proof. intro H. unfold uint32. now apply Z.mod_small. Qed.

Lemma uint32_nonneg (x : Z) : 0 <= uint32 x.
Proof. unfold uint32. apply Z.mod_pos_bound. reflexivity. Qed.

(** For a [uint32_t] size the counter never wraps: the loop makes
    [ul_size - ul_cnt] passes and leaves. *)
Lemma for_copy_run (p_ul_buf ul_size p_ul_data : Z) :
  ul_size < 2 ^ 32 ->
  forall fuel ul_cnt m,
    0 <= ul_cnt <= ul_size ->
    for_copy fuel p_ul_buf ul_size p_ul_data ul_cnt m =
    if (Z.to_nat (ul_size - ul_cnt) <? fuel)%nat
    then Returned tt (after_copy (Z.to_nat (ul_size - ul_cnt))
                                 p_ul_buf p_ul_data ul_cnt m)
    else Running (after_copy fuel p_ul_buf p_ul_data ul_cnt m).
Proof.
  intros Hsize. induction fuel as [|fuel IH]; intros ul_cnt m Hcnt.
  - reflexivity.
  - rewrite for_copy_S. destruct (Z.ltb_spec ul_cnt ul_size) as [Hlt|Hge].
    + rewrite uint32_small by lia. rewrite IH by lia.
      replace (Z.to_nat (ul_size - ul_cnt))
        with (S (Z.to_nat (ul_size - (ul_cnt + 1)))) by lia.
      change (S ?a <? S ?b)%nat with (a <? b)%nat.
      destruct (_ <? fuel)%nat; reflexivity.
    + replace (Z.to_nat (ul_size - ul_cnt)) with 0%nat by lia. reflexivity.
Qed.

Lemma after_copy_fields (p_ul_buf p_ul_data : Z) (k : nat) : forall ul_cnt m,
  EEFC_FMR (after_copy k p_ul_buf p_ul_data ul_cnt m) = EEFC_FMR m /\
  EEFC_FCR (after_copy k p_ul_buf p_ul_data ul_cnt m) = EEFC_FCR m /\
  EEFC_FSR (after_copy k p_ul_buf p_ul_data ul_cnt m) = EEFC_FSR m /\
  polls (after_copy k p_ul_buf p_ul_data ul_cnt m) = polls m.
Proof.
  induction k as [|k IH]; intros ul_cnt m; simpl after_copy.
  - repeat split.
  - destruct (IH (ul_cnt + 1) (copy1 p_ul_buf p_ul_data ul_cnt m))
      as (H1 & H2 & H3 & H4).
    rewrite H1, H2, H3, H4. repeat split.
Qed.

(** Only the destination words of the passes made are written. *)
Lemma after_copy_frame (p_ul_buf p_ul_data : Z) (k : nat) :
  forall ul_cnt m a,
    (forall i, ul_cnt <= i < ul_cnt + Z.of_nat k -> a <> p_ul_buf + 4 * i) ->
    mem (after_copy k p_ul_buf p_ul_data ul_cnt m) a = mem m a.
Proof.
  induction k as [|k IH]; intros ul_cnt m a Ha; simpl after_copy.
  - reflexivity.
  - rewrite IH by (intros i Hi; apply Ha; lia).
    rewrite copy1_mem.
    destruct (Z.eqb_spec a (p_ul_buf + 4 * ul_cnt)) as [E|]; auto.
    exfalso. apply (Ha ul_cnt); [lia | exact E].
Qed.

(** The log of the passes: load a word, store that word, next index.
    The destination ends up holding the words that were loaded. *)
Lemma after_copy_bus (p_ul_buf p_ul_data : Z) (k : nat) : forall ul_cnt m,
  exists vs, length vs = k /\
    bus (after_copy k p_ul_buf p_ul_data ul_cnt m) =
    bus m ++ copy_log p_ul_buf p_ul_data ul_cnt vs /\
    forall i, (i < k)%nat ->
      mem (after_copy k p_ul_buf p_ul_data ul_cnt m)
          (p_ul_buf + 4 * (ul_cnt + Z.of_nat i)) = nth i vs 0.
Proof.
  induction k as [|k IH]; intros ul_cnt m; simpl after_copy.
  - exists []. cbn [copy_log]. rewrite app_nil_r.
    repeat split. intros i Hi. lia.
  - destruct (IH (ul_cnt + 1) (copy1 p_ul_buf p_ul_data ul_cnt m))
      as (vs & Hlen & Hbus & Hmem).
    exists (mem m (p_ul_data + 4 * ul_cnt) :: vs).
    split; [simpl; lia|]. split.
    + rewrite Hbus, copy1_bus, <- app_assoc. reflexivity.
    + intros [|i] Hi; cbn [nth].
      * rewrite after_copy_frame by (intros i' Hi'; lia).
        rewrite copy1_mem.
        replace (p_ul_buf + 4 * (ul_cnt + Z.of_nat 0))
          with (p_ul_buf + 4 * ul_cnt) by lia.
        now rewrite Z.eqb_refl.
      * rewrite <- (Hmem i) by lia. f_equal. lia.
Qed.

Lemma copy_log_inj (p_ul_buf p_ul_data : Z) : forall vs1 vs2 ul_cnt,
  length vs1 = length vs2 ->
  copy_log p_ul_buf p_ul_data ul_cnt vs1 =
  copy_log p_ul_buf p_ul_data ul_cnt vs2 ->
  vs1 = vs2.
Proof.
  induction vs1 as [|x vs1 IH]; intros [|y vs2] ul_cnt Hlen E;
    try discriminate; auto.
  cbn [copy_log] in E. injection E as E1 _ E2.
  f_equal; [exact E1|]. eapply IH; [|exact E2]. simpl in Hlen. lia.
Qed.

Lemma words_length (f : Z -> Z) (p : Z) (n : nat) : length (words f p n) = n.
Proof. unfold words. now rewrite length_map, length_seq. Qed.

Lemma words_S (f : Z -> Z) (p : Z) (n : nat) :
  words f p (S n) = f p :: words f (p + 4) n.
Proof.
  unfold words. rewrite <- cons_seq, <- seq_shift, map_cons, map_map.
  f_equal.
  - f_equal. lia.
  - apply map_ext. intro i. f_equal. lia.
Qed.

(** When no destination word is a source word, the passes store the
    words the source held at the start. *)
Lemma after_copy_separate (p_ul_buf p_ul_data : Z) (k : nat) :
  forall ul_cnt m,
    (forall i j, ul_cnt <= i < ul_cnt + Z.of_nat k ->
                 ul_cnt <= j < ul_cnt + Z.of_nat k ->
                 p_ul_buf + 4 * i <> p_ul_data + 4 * j) ->
    bus (after_copy k p_ul_buf p_ul_data ul_cnt m) =
    bus m ++ copy_log p_ul_buf p_ul_data ul_cnt
                      (words (mem m) (p_ul_data + 4 * ul_cnt) k)
    /\ forall i, ul_cnt <= i < ul_cnt + Z.of_nat k ->
         mem (after_copy k p_ul_buf p_ul_data ul_cnt m) (p_ul_buf + 4 * i) =
         mem m (p_ul_data + 4 * i).
Proof.
  induction k as [|k IH]; intros ul_cnt m Hsep; simpl after_copy.
  - split; [simpl; now rewrite app_nil_r | intros i Hi; lia].
  - destruct (IH (ul_cnt + 1) (copy1 p_ul_buf p_ul_data ul_cnt m))
      as (Hbus & Hmem).
    { intros i j Hi Hj. apply Hsep; lia. }
    assert (Hsrc : forall j, ul_cnt < j < ul_cnt + Z.of_nat (S k) ->
              mem (copy1 p_ul_buf p_ul_data ul_cnt m) (p_ul_data + 4 * j) =
              mem m (p_ul_data + 4 * j)).
    { intros j Hj. rewrite copy1_mem.
      destruct (Z.eqb_spec (p_ul_data + 4 * j) (p_ul_buf + 4 * ul_cnt))
        as [E|]; auto.
      exfalso. apply (Hsep ul_cnt j); [lia | lia | now symmetry]. }
    split.
    + rewrite Hbus, copy1_bus, <- app_assoc, words_S. cbn [copy_log app].
      do 4 f_equal.
      replace (p_ul_data + 4 * ul_cnt + 4) with (p_ul_data + 4 * (ul_cnt + 1))
        by lia.
      unfold words. apply map_ext_in. intros i Hi. apply in_seq in Hi.
      replace (p_ul_data + 4 * (ul_cnt + 1) + 4 * Z.of_nat i)
        with (p_ul_data + 4 * (ul_cnt + 1 + Z.of_nat i)) by lia.
      apply Hsrc. lia.
    + intros i Hi. destruct (Z.eq_dec i ul_cnt) as [->|Hne].
      * rewrite after_copy_frame by (intros i' Hi'; lia).
        rewrite copy1_mem, Z.eqb_refl. reflexivity.
      * rewrite Hmem by lia. apply Hsrc. lia.
Qed.

(** Whatever the size and the budget, the copy loop touches no register
    and accesses only source and destination words below [ul_size]. *)
Lemma for_copy_any (p_ul_buf ul_size p_ul_data : Z) : forall fuel ul_cnt m,
  0 <= ul_cnt ->
  let m' := machine_of (for_copy fuel p_ul_buf ul_size p_ul_data ul_cnt m) in
  EEFC_FMR m' = EEFC_FMR m /\ EEFC_FCR m' = EEFC_FCR m /\
  EEFC_FSR m' = EEFC_FSR m /\ polls m' = polls m /\
  (exists l, bus m' = bus m ++ l /\
             Forall (copy_access p_ul_buf ul_size p_ul_data) l) /\
  (forall a, (forall i, 0 <= i < ul_size -> a <> p_ul_buf + 4 * i) ->
             mem m' a = mem m a).
Proof.
  induction fuel as [|fuel IH]; intros ul_cnt m Hcnt.
  - simpl. repeat split; auto. exists []. now rewrite app_nil_r.
  - rewrite for_copy_S. destruct (Z.ltb_spec ul_cnt ul_size) as [Hlt|Hge].
    + destruct (IH (uint32 (ul_cnt + 1)) (copy1 p_ul_buf p_ul_data ul_cnt m)
                   (uint32_nonneg _)) as (H1 & H2 & H3 & H4 & (l & Hl & Hall) & H6).
      cbv zeta. rewrite H1, H2, H3, H4. repeat split; auto.
      * eexists. rewrite Hl, copy1_bus, <- app_assoc. split; [reflexivity|].
        simpl. repeat constructor; auto; exists ul_cnt; split; auto; lia.
      * intros a Ha. rewrite H6 by exact Ha. rewrite copy1_mem.
        destruct (Z.eqb_spec a (p_ul_buf + 4 * ul_cnt)) as [E|]; auto.
        exfalso. apply (Ha ul_cnt); [lia | exact E].
    + simpl. repeat split; auto. exists []. now rewrite app_nil_r.
Qed.

(** ** The stages of a read sequence *)

Section Stages.

Variable h : component_efc.

Lemma start_issued_fields (ul_cmd_st : Z) (m : machine) :
  EEFC_FMR (start_issued h ul_cmd_st m) =
    Z.lor (EEFC_FMR m) (Z.shiftl 1 16) /\
  EEFC_FCR (start_issued h ul_cmd_st m) = fcr_word h ul_cmd_st /\
  EEFC_FSR (start_issued h ul_cmd_st m) = EEFC_FSR m /\
  polls (start_issued h ul_cmd_st m) = polls m /\
  mem (start_issued h ul_cmd_st m) = mem m /\
  bus (start_issued h ul_cmd_st m) =
    bus m ++ [RegRead FMR (EEFC_FMR m);
              RegWrite FMR (Z.lor (EEFC_FMR m) (Z.shiftl 1 16));
              RegWrite FCR (fcr_word h ul_cmd_st)].
Proof.
  repeat split. unfold start_issued, bind; simpl.
  now rewrite <- !app_assoc.
Qed.

Lemma stop_issued_fields (ul_cmd_sp : Z) (m : machine) :
  EEFC_FMR (stop_issued h ul_cmd_sp m) = EEFC_FMR m /\
  EEFC_FCR (stop_issued h ul_cmd_sp m) = fcr_word h ul_cmd_sp /\
  EEFC_FSR (stop_issued h ul_cmd_sp m) = EEFC_FSR m /\
  polls (stop_issued h ul_cmd_sp m) = polls m /\
  mem (stop_issued h ul_cmd_sp m) = mem m /\
  bus (stop_issued h ul_cmd_sp m) =
    bus m ++ [RegWrite FCR (fcr_word h ul_cmd_sp)].
Proof. repeat split. Qed.

Lemma read_mode_left_fields (m : machine) :
  EEFC_FMR (read_mode_left m) =
    Z.land (EEFC_FMR m) (uint32 (Z.lnot (Z.shiftl 1 16))) /\
  EEFC_FCR (read_mode_left m) = EEFC_FCR m /\
  EEFC_FSR (read_mode_left m) = EEFC_FSR m /\
  polls (read_mode_left m) = polls m /\
  mem (read_mode_left m) = mem m /\
  bus (read_mode_left m) =
    bus m ++ [RegRead FMR (EEFC_FMR m);
              RegWrite FMR
                (Z.land (EEFC_FMR m) (uint32 (Z.lnot (Z.shiftl 1 16))))].
Proof.
  repeat split. unfold read_mode_left, bind; simpl.
  now rewrite <- !app_assoc.
Qed.

(** The function, one loop at a time. *)
Lemma read_sequence_unfold (fuel : nat)
  (ul_cmd_st ul_cmd_sp p_ul_buf ul_size p_ul_data : Z) (m : machine) :
  p_ul_buf <> NULL ->
  efc_perform_read_sequence h fuel ul_cmd_st ul_cmd_sp p_ul_buf ul_size
                            p_ul_data m =
  match do_while_FSR fuel (frdy h) (start_issued h ul_cmd_st m) with
  | Returned _ m2 =>
      match for_copy fuel p_ul_buf ul_size p_ul_data 0 m2 with
      | Returned _ m3 =>
          match do_while_FSR fuel (fun ul_status => negb (frdy h ul_status))
                             (stop_issued h ul_cmd_sp m3) with
          | Returned _ m5 => Returned EFC_RC_OK (read_mode_left m5)
          | Running m5 => Running m5
          end
      | Running m3 => Running m3
      end
  | Running m2 => Running m2
  end.
Proof.
  intros Hbuf. unfold efc_perform_read_sequence.
  destruct (Z.eqb_spec p_ul_buf NULL) as [|_]; [contradiction|].
  unfold bind at 1 2 3. cbn [read_FMR write_FMR write_FCR].
  change (log _ (set_FCR _ (log _ (set_FMR _ (log _ m)))))
    with (start_issued h ul_cmd_st m).
  unfold bind at 1.
  destruct (do_while_FSR fuel _ (start_issued h ul_cmd_st m))
    as [s m2|m2]; [|reflexivity].
  unfold bind at 1.
  destruct (for_copy fuel p_ul_buf ul_size p_ul_data 0 m2)
    as [[] m3|m3]; [|reflexivity].
  unfold bind at 1 2. cbn [write_FCR].
  change (log _ (set_FCR _ m3)) with (stop_issued h ul_cmd_sp m3).
  destruct (do_while_FSR fuel _ (stop_issued h ul_cmd_sp m3))
    as [s' m5|m5]; reflexivity.
Qed.

End Stages.

(** ** Runs of the read sequence *)

Lemma status_reads_ext (m m' : machine) (j : nat) :
  EEFC_FSR m' = EEFC_FSR m -> polls m' = polls m ->
  status_reads m' j = status_reads m j.
Proof. intros E1 E2. unfold status_reads. now rewrite E1, E2. Qed.

Lemma negb_false_true (b : bool) : negb b = false <-> b = true.
Proof. destruct b; simpl; split; congruence. Qed.

Lemma negb_true_false (b : bool) : negb b = true <-> b = false.
Proof. destruct b; simpl; split; congruence. Qed.

Section Runs.

Variable h : component_efc.
Variables ul_cmd_st ul_cmd_sp p_ul_buf ul_size p_ul_data : Z.

(** With a responsive controller and budget enough for each loop, the
    call returns [EFC_RC_OK] and leaves [read_sequence_done]. *)
Lemma read_sequence_returns (fuel j1 j2 : nat) (m : machine) :
  p_ul_buf <> NULL ->
  0 <= ul_size < 2 ^ 32 ->
  falls_after h m j1 ->
  rises_after h (after_polls (S j1) m) j2 ->
  (j1 < fuel)%nat -> (j2 < fuel)%nat -> (Z.to_nat ul_size < fuel)%nat ->
  efc_perform_read_sequence h fuel ul_cmd_st ul_cmd_sp p_ul_buf ul_size
                            p_ul_data m =
  Returned EFC_RC_OK
    (read_sequence_done h ul_cmd_st ul_cmd_sp p_ul_buf ul_size p_ul_data
                        j1 j2 m).
Proof.
  intros Hbuf Hsize [Hf1 Hf2] [Hr1 Hr2] Hj1 Hj2 Hn.
  rewrite read_sequence_unfold by exact Hbuf.
  destruct (after_polls_fields (S j1) m) as (_ & _ & P3 & P4 & _).
  rewrite P3, P4 in Hr1, Hr2.
  rewrite (do_while_exit (frdy h) j1); auto.
  rewrite for_copy_run by lia.
  rewrite Z.sub_0_r.
  destruct (Nat.ltb_spec (Z.to_nat ul_size) fuel) as [_|]; [|lia].
  set (m3 := after_copy _ _ _ _ _).
  assert (E3 : EEFC_FSR (stop_issued h ul_cmd_sp m3) = EEFC_FSR m /\
               polls (stop_issued h ul_cmd_sp m3) = (polls m + S j1)%nat).
  { destruct (stop_issued_fields h ul_cmd_sp m3) as (_ & _ & S3 & S4 & _).
    rewrite S3, S4. subst m3.
    destruct (after_copy_fields p_ul_buf p_ul_data (Z.to_nat ul_size) 0
                (after_polls (S j1) (start_issued h ul_cmd_st m)))
      as (_ & _ & Q3 & Q4).
    rewrite Q3, Q4.
    destruct (after_polls_fields (S j1) (start_issued h ul_cmd_st m))
      as (_ & _ & R3 & R4 & _).
    rewrite R3, R4. split; reflexivity. }
  destruct E3 as [E3 E4].
  rewrite (do_while_exit (fun s => negb (frdy h s)) j2).
  - reflexivity.
  - intros k Hk. rewrite E3, E4. apply negb_true_false. now apply Hr1.
  - rewrite E3, E4. apply negb_false_true. exact Hr2.
  - exact Hj2.
Qed.

(** When FRDY falls but never rises again, the call copies, writes the
    stop command and stays in the second loop. *)
Lemma read_sequence_waits_for_rise (fuel j1 : nat) (m : machine) :
  p_ul_buf <> NULL ->
  0 <= ul_size < 2 ^ 32 ->
  falls_after h m j1 ->
  (forall k, frdy h (EEFC_FSR m (polls m + S j1 + k)%nat) = false) ->
  (j1 < fuel)%nat -> (Z.to_nat ul_size < fuel)%nat ->
  efc_perform_read_sequence h fuel ul_cmd_st ul_cmd_sp p_ul_buf ul_size
                            p_ul_data m =
  Running
    (after_polls fuel
       (stop_issued h ul_cmd_sp
          (after_copy (Z.to_nat ul_size) p_ul_buf p_ul_data 0
             (after_polls (S j1) (start_issued h ul_cmd_st m))))).
Proof.
  intros Hbuf Hsize [Hf1 Hf2] Hlow Hj1 Hn.
  rewrite read_sequence_unfold by exact Hbuf.
  rewrite (do_while_exit (frdy h) j1); auto.
  rewrite for_copy_run by lia.
  rewrite Z.sub_0_r.
  destruct (Nat.ltb_spec (Z.to_nat ul_size) fuel) as [_|]; [|lia].
  set (m3 := after_copy _ _ _ _ _).
  rewrite do_while_stuck; [reflexivity|].
  intros k _.
  destruct (stop_issued_fields h ul_cmd_sp m3) as (_ & _ & S3 & S4 & _).
  rewrite S3, S4. subst m3.
  destruct (after_copy_fields p_ul_buf p_ul_data (Z.to_nat ul_size) 0
              (after_polls (S j1) (start_issued h ul_cmd_st m)))
    as (_ & _ & Q3 & Q4).
  rewrite Q3, Q4.
  destruct (after_polls_fields (S j1) (start_issued h ul_cmd_st m))
    as (_ & _ & R3 & R4 & _).
  rewrite R3, R4. cbn [start_issued]. apply negb_true_false.
  destruct (start_issued_fields h ul_cmd_st m) as (_ & _ & A3 & A4 & _).
  rewrite A3, A4. apply Hlow.
Qed.

(** The machine reached through the stages, for any machine [m3] the
    copy loop may leave. *)
Lemma stages_fields (a b : nat) (lc : list access) (m m3 : machine) :
  let m2 := after_polls a (start_issued h ul_cmd_st m) in
  let m5 := after_polls b (stop_issued h ul_cmd_sp m3) in
  EEFC_FMR m3 = EEFC_FMR m2 -> EEFC_FSR m3 = EEFC_FSR m2 ->
  polls m3 = polls m2 -> bus m3 = bus m2 ++ lc ->
  (EEFC_FMR m2 = Z.lor (EEFC_FMR m) (Z.shiftl 1 16) /\
   EEFC_FSR m2 = EEFC_FSR m /\ polls m2 = (polls m + a)%nat /\
   mem m2 = mem m /\
   bus m2 = bus m ++ entry_log h ul_cmd_st m ++ status_reads m a) /\
  (EEFC_FSR m5 = EEFC_FSR m /\ polls m5 = (polls m + a + b)%nat /\
   mem m5 = mem m3 /\
   bus m5 = bus m ++ entry_log h ul_cmd_st m ++ status_reads m a ++ lc
            ++ RegWrite FCR (fcr_word h ul_cmd_sp)
               :: status_reads (after_polls a m) b) /\
  (EEFC_FMR (read_mode_left m5) =
     Z.land (Z.lor (EEFC_FMR m) (Z.shiftl 1 16))
            (uint32 (Z.lnot (Z.shiftl 1 16))) /\
   EEFC_FCR (read_mode_left m5) = fcr_word h ul_cmd_sp /\
   EEFC_FSR (read_mode_left m5) = EEFC_FSR m /\
   polls (read_mode_left m5) = (polls m + a + b)%nat /\
   mem (read_mode_left m5) = mem m3 /\
   bus (read_mode_left m5) =
     bus m ++ entry_log h ul_cmd_st m ++ status_reads m a ++ lc
     ++ RegWrite FCR (fcr_word h ul_cmd_sp)
        :: status_reads (after_polls a m) b ++ exit_log m).
Proof.
  intros m2 m5 H1 H3 H4 H6.
  destruct (start_issued_fields h ul_cmd_st m)
    as (A1 & A2 & A3 & A4 & A5 & A6).
  destruct (after_polls_fields a (start_issued h ul_cmd_st m))
    as (B1 & B2 & B3 & B4 & B5).
  fold m2 in B1, B2, B3, B4, B5.
  assert (B6 : bus m2 =
               bus m ++ entry_log h ul_cmd_st m ++ status_reads m a).
  { unfold m2. rewrite after_polls_bus, A6, <- app_assoc.
    now rewrite (status_reads_ext m _ a A3 A4). }
  destruct (stop_issued_fields h ul_cmd_sp m3)
    as (C1 & C2 & C3 & C4 & C5 & C6).
  destruct (after_polls_fields b (stop_issued h ul_cmd_sp m3))
    as (D1 & D2 & D3 & D4 & D5).
  fold m5 in D1, D2, D3, D4, D5.
  destruct (after_polls_fields a m) as (_ & _ & P3 & P4 & _).
  assert (D6 : bus m5 =
               bus m ++ entry_log h ul_cmd_st m ++ status_reads m a ++ lc
               ++ RegWrite FCR (fcr_word h ul_cmd_sp)
                  :: status_reads (after_polls a m) b).
  { unfold m5. rewrite after_polls_bus, C6, H6, B6.
    rewrite (status_reads_ext (after_polls a m) _ b).
    - rewrite <- !app_assoc. reflexivity.
    - rewrite C3, H3, B3, A3, P3. reflexivity.
    - rewrite C4, H4, B4, A4, P4. reflexivity. }
  destruct (read_mode_left_fields m5) as (E1 & E2 & E3 & E4 & E5 & E6).
  assert (F1 : EEFC_FMR m5 = Z.lor (EEFC_FMR m) (Z.shiftl 1 16)).
  { rewrite D1, C1, H1, B1, A1. reflexivity. }
  split; [|split].
  - rewrite B1, A1, B3, A3, B4, A4, B5, A5. repeat split. exact B6.
  - rewrite D3, C3, H3, B3, A3, D4, C4, H4, B4, A4, D5, C5.
    repeat split. exact D6.
  - rewrite E1, E2, E3, E4, E5, E6, F1, D2, C2, D3, C3, H3, B3, A3,
      D4, C4, H4, B4, A4, D5, C5, D6.
    repeat split. unfold exit_log.
    rewrite <- !app_assoc. reflexivity.
Qed.

(** Every run with a buffer, returned or not: what it logged, what it
    left in memory, and how far it came. *)
Lemma read_sequence_any (fuel : nat) (m : machine) :
  p_ul_buf <> NULL ->
  let o := efc_perform_read_sequence h fuel ul_cmd_st ul_cmd_sp p_ul_buf
                                     ul_size p_ul_data m in
  exists (a : nat) (lc tail : list access),
    bus (machine_of o) =
      bus m ++ entry_log h ul_cmd_st m ++ status_reads m a ++ lc ++ tail /\
    Forall (copy_access p_ul_buf ul_size p_ul_data) lc /\
    EEFC_FSR (machine_of o) = EEFC_FSR m /\
    (forall addr,
        (forall i, 0 <= i < ul_size -> addr <> p_ul_buf + 4 * i) ->
        mem (machine_of o) addr = mem m addr) /\
    ((tail = [] /\ o = Running (machine_of o)) \/
     (exists b,
         tail = RegWrite FCR (fcr_word h ul_cmd_sp)
                :: status_reads (after_polls a m) b /\
         o = Running (machine_of o)) \/
     (exists b,
         tail = RegWrite FCR (fcr_word h ul_cmd_sp)
                :: status_reads (after_polls a m) b ++ exit_log m /\
         o = Returned EFC_RC_OK (machine_of o) /\
         EEFC_FMR (machine_of o) =
           Z.land (Z.lor (EEFC_FMR m) (Z.shiftl 1 16))
                  (uint32 (Z.lnot (Z.shiftl 1 16))) /\
         EEFC_FCR (machine_of o) = fcr_word h ul_cmd_sp)).
Proof.
  intros Hbuf o. subst o. rewrite read_sequence_unfold by exact Hbuf.
  destruct (do_while_machine (frdy h) fuel (start_issued h ul_cmd_st m))
    as (a & _ & Ea).
  exists a.
  destruct (do_while_FSR fuel (frdy h) (start_issued h ul_cmd_st m))
    as [v m2|m2]; cbn [machine_of] in Ea; subst m2.
  - destruct (for_copy_any p_ul_buf ul_size p_ul_data fuel 0
                (after_polls a (start_issued h ul_cmd_st m))
                ltac:(lia)) as (F1 & _ & F3 & F4 & (lc & F6 & Hlc) & Fm).
    exists lc.
    destruct (for_copy fuel p_ul_buf ul_size p_ul_data 0
                (after_polls a (start_issued h ul_cmd_st m)))
      as [[] m3|m3]; cbn [machine_of] in *.
    + destruct (do_while_machine (fun s => negb (frdy h s)) fuel
                  (stop_issued h ul_cmd_sp m3)) as (b & _ & Eb).
      destruct (stages_fields a b lc m m3 F1 F3 F4 F6)
        as ((_ & _ & _ & G4 & _) & (K1 & _ & K3 & K4) &
            (L1 & L2 & L3 & _ & L5 & L6)).
      destruct (do_while_FSR fuel _ (stop_issued h ul_cmd_sp m3))
        as [v' m5|m5]; cbn [machine_of] in *; subst m5.
      * exists (RegWrite FCR (fcr_word h ul_cmd_sp)
                :: status_reads (after_polls a m) b ++ exit_log m).
        repeat split; auto.
        -- intros addr Ha. rewrite L5, Fm, G4; auto.
        -- right. right. exists b. repeat split; auto.
      * exists (RegWrite FCR (fcr_word h ul_cmd_sp)
                :: status_reads (after_polls a m) b).
        repeat split; auto.
        -- intros addr Ha. rewrite K3, Fm, G4; auto.
        -- right. left. exists b. split; reflexivity.
    + destruct (stages_fields a 0 lc m m3 F1 F3 F4 F6)
        as ((_ & G2 & _ & G4 & G5) & _ & _).
      exists []. rewrite app_nil_r. repeat split; auto.
      * rewrite F6, G5, <- !app_assoc. reflexivity.
      * congruence.
      * intros addr Ha. rewrite Fm, G4; auto.
  - destruct (stages_fields a 0 [] m
                (after_polls a (start_issued h ul_cmd_st m)))
      as ((_ & G2 & _ & G4 & G5) & _ & _); auto using app_nil_r.
    exists [], []. cbn [machine_of]. rewrite !app_nil_r.
    repeat split; auto. intros addr Ha. now rewrite G4.
Qed.

(** What a returning read sequence leaves behind. *)
Lemma read_sequence_done_fields (j1 j2 : nat) (m : machine) :
  let m' := read_sequence_done h ul_cmd_st ul_cmd_sp p_ul_buf ul_size
                               p_ul_data j1 j2 m in
  EEFC_FMR m' = Z.land (Z.lor (EEFC_FMR m) (Z.shiftl 1 16))
                       (uint32 (Z.lnot (Z.shiftl 1 16))) /\
  EEFC_FCR m' = fcr_word h ul_cmd_sp /\
  EEFC_FSR m' = EEFC_FSR m /\
  polls m' = (polls m + S j1 + S j2)%nat /\
  exists vs, length vs = Z.to_nat ul_size /\
     bus m' = bus m ++ read_sequence_log h ul_cmd_st ul_cmd_sp p_ul_buf
                                         p_ul_data j1 j2 vs m /\
     (forall i, (i < Z.to_nat ul_size)%nat ->
                mem m' (p_ul_buf + 4 * Z.of_nat i) = nth i vs 0) /\
     (separate p_ul_buf p_ul_data ul_size ->
      vs = words (mem m) p_ul_data (Z.to_nat ul_size) /\
      forall i, 0 <= i < ul_size ->
                mem m' (p_ul_buf + 4 * i) = mem m (p_ul_data + 4 * i)).
Proof.
  intro m'. subst m'. unfold read_sequence_done.
  set (m2 := after_polls (S j1) (start_issued h ul_cmd_st m)).
  set (k := Z.to_nat ul_size).
  set (m3 := after_copy k p_ul_buf p_ul_data 0 m2).
  destruct (after_copy_fields p_ul_buf p_ul_data k 0 m2)
    as (C1 & _ & C3 & C4).
  destruct (after_copy_bus p_ul_buf p_ul_data k 0 m2)
    as (vs & Hlen & C6 & Cn).
  fold m3 in C1, C3, C4, C6, Cn.
  destruct (stages_fields (S j1) (S j2) _ m m3 C1 C3 C4 C6)
    as ((_ & _ & _ & G4 & G5) & _ & (L1 & L2 & L3 & L4 & L5 & L6)).
  fold m2 in G4, G5.
  split; [exact L1|]. split; [exact L2|]. split; [exact L3|].
  split; [rewrite L4; lia|].
  exists vs. split; [exact Hlen|]. split; [exact L6|]. split.
  - intros i Hi. rewrite L5. now rewrite <- (Cn i Hi).
  - intro Hsep.
    destruct (after_copy_separate p_ul_buf p_ul_data k 0 m2) as (S6 & Sm).
    { intros i j Hi Hj. unfold separate in Hsep. lia. }
    fold m3 in S6, Sm. rewrite G4, Z.mul_0_r, Z.add_0_r in S6. split.
    + rewrite C6 in S6. apply app_inv_head in S6.
      apply copy_log_inj in S6; [exact S6|]. now rewrite Hlen, words_length.
    + intros i Hi. rewrite L5, Sm by lia. now rewrite G4.
Qed.

End Runs.

(** ** Executing one command: [efc_perform_fcr] *)

Section Command.

Variable h : component_efc.

Lemma perform_fcr_unfold (fuel : nat) (ul_fcr : Z) (m : machine) :
  efc_perform_fcr h fuel ul_fcr m =
  match do_while_FSR fuel (fun ul_status => negb (frdy h ul_status))
                     (command_issued ul_fcr m) with
  | Returned ul_status m' =>
      Returned (Z.land ul_status (EEFC_ERROR_FLAGS h)) m'
  | Running m' => Running m'
  end.
Proof. reflexivity. Qed.

(** A returning call saw FRDY clear at every poll but the last. *)
Lemma perform_fcr_returned (fuel : nat) (ul_fcr : Z) (m m' : machine)
  (r : Z) :
  efc_perform_fcr h fuel ul_fcr m = Returned r m' ->
  exists j, (j < fuel)%nat /\ rises_after h m j /\
    r = Z.land (EEFC_FSR m (polls m + j)%nat) (EEFC_ERROR_FLAGS h) /\
    m' = after_polls (S j) (command_issued ul_fcr m).
Proof.
  rewrite perform_fcr_unfold.
  destruct (do_while_cases (fun s => negb (frdy h s)) fuel
              (command_issued ul_fcr m))
    as [(j & Hj & Hb & Ha & E) | (_ & E)]; rewrite E; [|discriminate].
  intros [= <- <-]. exists j. repeat split; auto.
  - intros k Hk. apply negb_true_false. now apply (Hb k).
  - apply negb_false_true. exact Ha.
Qed.

Lemma perform_fcr_returns (fuel j : nat) (ul_fcr : Z) (m : machine) :
  rises_after h m j -> (j < fuel)%nat ->
  efc_perform_fcr h fuel ul_fcr m =
  Returned (Z.land (EEFC_FSR m (polls m + j)%nat) (EEFC_ERROR_FLAGS h))
           (after_polls (S j) (command_issued ul_fcr m)).
Proof.
  intros [Hb Ha] Hj. rewrite perform_fcr_unfold.
  rewrite (do_while_exit (fun s => negb (frdy h s)) j); auto.
  - intros k Hk. apply negb_true_false. now apply Hb.
  - apply negb_false_true. exact Ha.
Qed.

End Command.

(** ** Bits of the Mode and Command registers *)

(** Setting bit 16 and then masking with [~(0x1u << 16)] leaves bit 16
    clear and keeps the other 31 bits. *)
Lemma mode_bit_set_then_cleared (fmr i : Z) :
  0 <= i ->
  Z.testbit (Z.land (Z.lor fmr (Z.shiftl 1 16))
                    (uint32 (Z.lnot (Z.shiftl 1 16)))) i =
  if i =? 16 then false else Z.testbit fmr i && (i <? 32).
Proof.
  intro Hi.
  change (uint32 (Z.lnot (Z.shiftl 1 16)))
    with (Z.ldiff (Z.ones 32) (2 ^ 16)).
  change (Z.shiftl 1 16) with (2 ^ 16).
  rewrite Z.land_spec, Z.lor_spec, Z.ldiff_spec, Z.pow2_bits_eqb by lia.
  rewrite (Z.eqb_sym 16 i).
  destruct (Z.eqb_spec i 16) as [->|Hne].
  - cbn [negb]. now rewrite !andb_false_r.
  - cbn [negb]. rewrite orb_false_r, andb_true_r.
    destruct (Z.ltb_spec i 32).
    + now rewrite Z.ones_spec_low by lia.
    + now rewrite Z.ones_spec_high by lia.
Qed.

Lemma uint32_high_bits (x i : Z) :
  0 <= x < 2 ^ 32 -> 32 <= i -> Z.testbit x i = false.
Proof.
  intros Hx Hi. destruct (Z.eq_dec x 0) as [->|Hnz].
  - apply Z.bits_0.
  - apply Z.bits_above_log2; [lia|].
    assert (Z.log2 x < 32) by (apply Z.log2_lt_pow2; lia). lia.
Qed.

Lemma fcr_word_value (h : component_efc) (ul_cmd : Z) :
  fcr_word h ul_cmd = Z.lor 0x5A000000 (Z.land ul_cmd 0xFF).
Proof.
  unfold fcr_word, EEFC_FCR_FARG, EEFC_FCR_FCMD.
  rewrite Z.shiftl_0_l, Z.land_0_r, Z.lor_0_r.
  unfold EEFC_FCR_FCMD_Pos. rewrite Z.shiftl_0_r.
  change EEFC_FCR_FKEY_PASSWD with 0x5A000000.
  change EEFC_FCR_FCMD_Msk with 0xFF.
  now rewrite (Z.land_comm 0xFF).
Qed.

(** The fields of the command word the read sequence writes. *)
Lemma fcr_word_fields (h : component_efc) (ul_cmd : Z) :
  fcr_key (fcr_word h ul_cmd) = FWP_KEY /\
  fcr_arg (fcr_word h ul_cmd) = 0 /\
  fcr_cmd (fcr_word h ul_cmd) = Z.land ul_cmd 0xFF.
Proof.
  rewrite fcr_word_value. unfold fcr_key, fcr_arg, fcr_cmd.
  change EEFC_FCR_FKEY_Msk with 0xFF000000.
  change EEFC_FCR_FKEY_Pos with 24.
  change EEFC_FCR_FCMD_Msk with 0xFF.
  change EEFC_FCR_FCMD_Pos with 0.
  change (Z.shiftl 0xFFFF 8) with 0xFFFF00.
  rewrite !Z.land_lor_distr_l, <- !Z.land_assoc.
  change (Z.land 0xFF 0xFF000000) with 0.
  change (Z.land 0xFF 0xFFFF00) with 0.
  change (Z.land 0xFF 0xFF) with 0xFF.
  change (Z.land 0x5A000000 0xFF000000) with 0x5A000000.
  change (Z.land 0x5A000000 0xFFFF00) with 0.
  change (Z.land 0x5A000000 0xFF) with 0.
  rewrite !Z.land_0_r, Z.lor_0_r, Z.lor_0_l, Z.shiftr_0_r.
  repeat split.
Qed.

Lemma land_0xFF_small (c : Z) : 0 <= c <= 0xFF -> Z.land c 0xFF = c.
Proof.
  intro Hc. change 0xFF with (Z.ones 8).
  rewrite Z.land_ones by lia. apply Z.mod_small. change (2 ^ 8) with 256. lia.
Qed.

(** ** The writes to the Command register in a log *)

Lemma fcr_writes_app (l1 l2 : list access) :
  fcr_writes (l1 ++ l2) = fcr_writes l1 ++ fcr_writes l2.
Proof.
  induction l1 as [|e l1 IH]; [reflexivity|].
  destruct e as [[]| [] | |]; simpl; rewrite IH; reflexivity.
Qed.

Lemma fcr_writes_copy (p_ul_buf ul_size p_ul_data : Z) (l : list access) :
  Forall (copy_access p_ul_buf ul_size p_ul_data) l -> fcr_writes l = [].
Proof.
  induction 1 as [|e l He _ IH]; [reflexivity|].
  destruct e; simpl in He; try contradiction; simpl; exact IH.
Qed.

Lemma store_within_copy (p_ul_buf ul_size p_ul_data : Z) (l : list access) :
  Forall (copy_access p_ul_buf ul_size p_ul_data) l ->
  Forall (store_within p_ul_buf ul_size) l.
Proof.
  intro H. eapply Forall_impl; [|exact H].
  intros [] He; simpl in *; auto.
Qed.

Lemma store_within_status (p_ul_buf ul_size : Z) (m : machine) (j : nat) :
  Forall (store_within p_ul_buf ul_size) (status_reads m j).
Proof.
  unfold status_reads. apply Forall_forall. intros e He.
  apply in_map_iff in He. destruct He as (k & <- & _). exact I.
Qed.

(** * The claims of the specification *)

(** ** [efc_perform_fcr] *)

(** C3: for every command word, when FRDY is clear during the first [j]
    polls and set at the next, [efc_perform_fcr] returns the status read
    at that poll masked with exactly the three error flags FLOCKE, FCMDE
    and FLERR.  The result is 0 if and only if none of the three flags
    was set in that status.  FRDY is not part of the mask: provided the
    header does not make FRDY one of the error bits, the result has FRDY
    clear although the status had it set. *)
Theorem perform_fcr_error_flags (h : component_efc) (ul_fcr : Z)
  (fuel j : nat) (m : machine) :
  rises_after h m j -> (j < fuel)%nat ->
  let ul_status := EEFC_FSR m (polls m + j)%nat in
  let r := Z.land ul_status
             (Z.lor (Z.lor (EEFC_FSR_FLOCKE h) (EEFC_FSR_FCMDE h))
                    (EEFC_FSR_FLERR h)) in
  (exists m', efc_perform_fcr h fuel ul_fcr m = Returned r m' /\
              polls m' = (polls m + S j)%nat) /\
  (r = 0 <-> Z.land ul_status (EEFC_FSR_FLOCKE h) = 0 /\
             Z.land ul_status (EEFC_FSR_FCMDE h) = 0 /\
             Z.land ul_status (EEFC_FSR_FLERR h) = 0) /\
  (Z.land (EEFC_FSR_FRDY h) (EEFC_ERROR_FLAGS h) = 0 ->
   Z.land r (EEFC_FSR_FRDY h) = 0 /\
   Z.land ul_status (EEFC_FSR_FRDY h) = EEFC_FSR_FRDY h).
Proof.
  intros Hrise Hj ul_status r. split; [|split].
  - eexists. split.
    + apply perform_fcr_returns; eassumption.
    + destruct (after_polls_fields (S j) (command_issued ul_fcr m))
        as (_ & _ & _ & P4 & _).
      rewrite P4. reflexivity.
  - unfold r. rewrite !Z.land_lor_distr_r, !Z.lor_eq_0_iff. tauto.
  - intro Hmask. split.
    + unfold r. fold (EEFC_ERROR_FLAGS h).
      rewrite <- Z.land_assoc, (Z.land_comm (EEFC_ERROR_FLAGS h)), Hmask.
      apply Z.land_0_r.
    + destruct Hrise as [_ Hset]. unfold frdy in Hset.
      now apply Z.eqb_eq in Hset.
Qed.

(** C7: two calls of [efc_perform_fcr] with the same command word, made
    on machines whose controllers present the same sequence of status
    values from the call on, return the same value: when the first call
    returns [r], so does the second (given at least the same budget),
    after the same number of polls and with the same command word in the
    Command register.  Nothing else of the machine matters. *)
Theorem perform_fcr_deterministic (h : component_efc) (ul_fcr : Z)
  (fuel1 fuel2 : nat) (m1 m2 m1' : machine) (r : Z) :
  (forall k, EEFC_FSR m1 (polls m1 + k)%nat =
             EEFC_FSR m2 (polls m2 + k)%nat) ->
  efc_perform_fcr h fuel1 ul_fcr m1 = Returned r m1' ->
  (fuel1 <= fuel2)%nat ->
  exists m2', efc_perform_fcr h fuel2 ul_fcr m2 = Returned r m2' /\
              (polls m2' + polls m1 = polls m1' + polls m2)%nat /\
              EEFC_FCR m2' = EEFC_FCR m1'.
Proof.
  intros Htrace Hrun Hfuel.
  apply perform_fcr_returned in Hrun.
  destruct Hrun as (j & Hj & [Hb Ha] & -> & ->).
  exists (after_polls (S j) (command_issued ul_fcr m2)).
  destruct (after_polls_fields (S j) (command_issued ul_fcr m1))
    as (_ & A2 & _ & A4 & _).
  destruct (after_polls_fields (S j) (command_issued ul_fcr m2))
    as (_ & B2 & _ & B4 & _).
  rewrite A2, A4, B2, B4. cbn [command_issued machine_of write_FCR log
    set_FCR polls EEFC_FCR].
  split; [|split; [lia | reflexivity]].
  rewrite Htrace. apply perform_fcr_returns; [|lia].
  split.
  - intros k Hk. rewrite <- Htrace. now apply Hb.
  - rewrite <- Htrace. exact Ha.
Qed.

(** C8: whatever the budget and whether or not the call has returned,
    the accesses [efc_perform_fcr] has made are one write of the given
    command word to the Command register followed by reads of the Status
    register only.  The Mode register and memory are as before, and the
    Command register holds the given word. *)
Theorem perform_fcr_single_write (h : component_efc) (fuel : nat)
  (ul_fcr : Z) (m : machine) :
  exists j, (j <= fuel)%nat /\
    bus (machine_of (efc_perform_fcr h fuel ul_fcr m)) =
      bus m ++ RegWrite FCR ul_fcr :: status_reads m j /\
    fcr_writes (RegWrite FCR ul_fcr :: status_reads m j) = [ul_fcr] /\
    forallb is_status_read (status_reads m j) = true /\
    EEFC_FMR (machine_of (efc_perform_fcr h fuel ul_fcr m)) = EEFC_FMR m /\
    EEFC_FCR (machine_of (efc_perform_fcr h fuel ul_fcr m)) = ul_fcr /\
    mem (machine_of (efc_perform_fcr h fuel ul_fcr m)) = mem m.
Proof.
  rewrite perform_fcr_unfold.
  destruct (do_while_machine (fun s => negb (frdy h s)) fuel
              (command_issued ul_fcr m)) as (j & Hj & E).
  exists j. split; [exact Hj|].
  assert (E' : machine_of
                 match do_while_FSR fuel (fun s => negb (frdy h s))
                                    (command_issued ul_fcr m) with
                 | Returned ul_status m' =>
                     Returned (Z.land ul_status (EEFC_ERROR_FLAGS h)) m'
                 | Running m' => Running m'
                 end = after_polls j (command_issued ul_fcr m)).
  { rewrite <- E. now destruct (do_while_FSR _ _ _). }
  rewrite E'.
  destruct (after_polls_fields j (command_issued ul_fcr m))
    as (P1 & P2 & _ & _ & P5).
  rewrite after_polls_bus, P1, P2, P5.
  repeat split.
  - cbn [command_issued machine_of write_FCR log set_FCR bus].
    rewrite <- app_assoc. reflexivity.
  - cbn [fcr_writes]. now rewrite status_reads_no_fcr.
  - apply status_reads_only.
Qed.

(** ** [efc_perform_read_sequence] *)

(** C4: with a null buffer pointer the call returns [EFC_RC_INVALID]
    (which is 2) at once, for every budget, and the machine is the one
    it was given: no register was read or written and nothing was
    logged on the bus. *)
Theorem read_sequence_null_buffer (h : component_efc) (fuel : nat)
  (ul_cmd_st ul_cmd_sp ul_size p_ul_data : Z) (m : machine) :
  efc_perform_read_sequence h fuel ul_cmd_st ul_cmd_sp NULL ul_size
                            p_ul_data m = Returned EFC_RC_INVALID m /\
  EFC_RC_INVALID = 2.
Proof. split; reflexivity. Qed.

(** C10: a value returned by [efc_perform_read_sequence] is either
    [EFC_RC_OK] = 0, and then the buffer pointer was not null, or
    [EFC_RC_INVALID] = 2, and then it was null and the machine is
    untouched.  In particular it is never [EFC_RC_ERROR] nor
    [EFC_RC_NOT_SUPPORT]. *)
Theorem read_sequence_return_codes (h : component_efc) (fuel : nat)
  (ul_cmd_st ul_cmd_sp p_ul_buf ul_size p_ul_data : Z) (m m' : machine)
  (rc : Z) :
  efc_perform_read_sequence h fuel ul_cmd_st ul_cmd_sp p_ul_buf ul_size
                            p_ul_data m = Returned rc m' ->
  ((rc = EFC_RC_OK /\ rc = 0 /\ p_ul_buf <> NULL) \/
   (rc = EFC_RC_INVALID /\ rc = 2 /\ p_ul_buf = NULL /\ m' = m)) /\
  rc <> EFC_RC_ERROR /\ rc <> EFC_RC_NOT_SUPPORT.
Proof.
  intro Hrun.
  assert (Hcases : (rc = EFC_RC_OK /\ rc = 0 /\ p_ul_buf <> NULL) \/
            (rc = EFC_RC_INVALID /\ rc = 2 /\ p_ul_buf = NULL /\ m' = m)).
  { destruct (Z.eq_dec p_ul_buf NULL) as [->|Hbuf].
    - right. unfold efc_perform_read_sequence in Hrun. simpl in Hrun.
      injection Hrun as <- <-. repeat split.
    - left.
      destruct (read_sequence_any h ul_cmd_st ul_cmd_sp p_ul_buf ul_size
                  p_ul_data fuel m Hbuf)
        as (a & lc & tail & _ & _ & _ & _ & Hshape).
      rewrite Hrun in Hshape.
      destruct Hshape as [[_ E] | [(b & _ & E) | (b & _ & E & _)]];
        try discriminate E.
      injection E as ->. repeat split. exact Hbuf. }
  split; [exact Hcases|].
  destruct Hcases as [(-> & _) | (-> & _)]; split; discriminate.
Qed.

(** C1: the loop after the start command polls while FRDY is set and
    leaves at the first status with FRDY clear; the loop after the stop
    command polls while FRDY is clear and leaves at the first status
    with FRDY set.  Hence, with a buffer given:
    - if FRDY never clears after the start command, the call has not
      returned whatever the budget: all it has done is enter the read
      mode, write the start command and read the Status register; no
      word was copied and no stop command issued;
    - if FRDY is set for [j1] polls, clear at the next, stays clear for
      [j2] further polls and is set at the one after, the call returns
      [EFC_RC_OK] having polled [S j1] times before the copy and [S j2]
      times after the stop command;
    - if FRDY falls but is never set again, the call has not returned
      whatever the budget: it has written the stop command and is
      reading the Status register. *)
Theorem read_sequence_edge_order (h : component_efc) (fuel : nat)
  (ul_cmd_st ul_cmd_sp p_ul_buf ul_size p_ul_data : Z) (m : machine) :
  p_ul_buf <> NULL ->
  ((forall k, frdy h (EEFC_FSR m (polls m + k)%nat) = true) ->
   exists m',
     efc_perform_read_sequence h fuel ul_cmd_st ul_cmd_sp p_ul_buf ul_size
                               p_ul_data m = Running m' /\
     bus m' = bus m ++ entry_log h ul_cmd_st m ++ status_reads m fuel /\
     existsb is_mem (entry_log h ul_cmd_st m ++ status_reads m fuel)
       = false /\
     mem m' = mem m /\
     EEFC_FCR m' = fcr_word h ul_cmd_st) /\
  (forall j1 j2,
     0 <= ul_size < 2 ^ 32 ->
     falls_after h m j1 ->
     rises_after h (after_polls (S j1) m) j2 ->
     (j1 < fuel)%nat -> (j2 < fuel)%nat -> (Z.to_nat ul_size < fuel)%nat ->
     exists m' vs,
       efc_perform_read_sequence h fuel ul_cmd_st ul_cmd_sp p_ul_buf ul_size
                                 p_ul_data m = Returned EFC_RC_OK m' /\
       length vs = Z.to_nat ul_size /\
       bus m' = bus m ++ read_sequence_log h ul_cmd_st ul_cmd_sp p_ul_buf
                                           p_ul_data j1 j2 vs m /\
       polls m' = (polls m + S j1 + S j2)%nat) /\
  (forall j1,
     0 <= ul_size < 2 ^ 32 ->
     falls_after h m j1 ->
     (forall k, frdy h (EEFC_FSR m (polls m + S j1 + k)%nat) = false) ->
     (j1 < fuel)%nat -> (Z.to_nat ul_size < fuel)%nat ->
     exists m',
       efc_perform_read_sequence h fuel ul_cmd_st ul_cmd_sp p_ul_buf ul_size
                                 p_ul_data m = Running m' /\
       EEFC_FCR m' = fcr_word h ul_cmd_sp /\
       polls m' = (polls m + S j1 + fuel)%nat).
Proof.
  intro Hbuf. split; [|split].
  - intro Hready.
    exists (after_polls fuel (start_issued h ul_cmd_st m)).
    destruct (start_issued_fields h ul_cmd_st m)
      as (_ & A2 & A3 & A4 & A5 & _).
    destruct (stages_fields h ul_cmd_st ul_cmd_sp fuel 0 [] m
                (after_polls fuel (start_issued h ul_cmd_st m)))
      as ((_ & _ & _ & G4 & G5) & _ & _); auto using app_nil_r.
    destruct (after_polls_fields fuel (start_issued h ul_cmd_st m))
      as (_ & P2 & _ & _ & _).
    split; [|split; [|split; [|split]]].
    + rewrite read_sequence_unfold by exact Hbuf.
      rewrite do_while_stuck; [reflexivity|].
      intros k _. rewrite A3, A4. apply Hready.
    + exact G5.
    + rewrite existsb_app, status_reads_no_mem. reflexivity.
    + exact G4.
    + now rewrite P2.
  - intros j1 j2 Hsize Hfall Hrise Hj1 Hj2 Hn.
    destruct (read_sequence_done_fields h ul_cmd_st ul_cmd_sp p_ul_buf
                ul_size p_ul_data j1 j2 m)
      as (_ & _ & _ & D4 & (vs & Hlen & Hbus & _)).
    eexists. exists vs. split.
    + apply read_sequence_returns; eassumption.
    + split; [exact Hlen|]. split; [exact Hbus | exact D4].
  - intros j1 Hsize Hfall Hlow Hj1 Hn.
    eexists. split.
    + apply read_sequence_waits_for_rise; eassumption.
    + set (m3 := after_copy _ _ _ _ _).
      destruct (after_copy_fields p_ul_buf p_ul_data (Z.to_nat ul_size) 0
                  (after_polls (S j1) (start_issued h ul_cmd_st m)))
        as (C1 & _ & C3 & C4).
      fold m3 in C4.
      destruct (after_polls_fields fuel (stop_issued h ul_cmd_sp m3))
        as (_ & P2 & _ & P4 & _).
      destruct (stop_issued_fields h ul_cmd_sp m3) as (_ & S2 & _ & S4 & _).
      destruct (after_polls_fields (S j1) (start_issued h ul_cmd_st m))
        as (_ & _ & _ & R4 & _).
      destruct (start_issued_fields h ul_cmd_st m) as (_ & _ & _ & A4 & _).
      split; [now rewrite P2, S2|].
      now rewrite P4, S4, C4, R4, A4.
Qed.

(** C2: with a buffer given, a [uint32_t] word count [ul_size], a
    controller that lets FRDY fall and rise again, and budget for the
    loops, the call returns [EFC_RC_OK], and between the two polling
    loops it makes exactly [ul_size] load/store pairs, index after
    index from 0: each loads a word from the source at the index and
    stores that same word to the buffer at the same index.  Afterwards
    word [i] of the buffer is the [i]-th word loaded.  When the buffer
    does not overlap the source, the words loaded are the source as it
    was before the call, so that buffer[i] = source[i] for every
    [i < ul_size]. *)
Theorem read_sequence_copies_words (h : component_efc) (fuel j1 j2 : nat)
  (ul_cmd_st ul_cmd_sp p_ul_buf ul_size p_ul_data : Z) (m : machine) :
  p_ul_buf <> NULL ->
  0 <= ul_size < 2 ^ 32 ->
  falls_after h m j1 ->
  rises_after h (after_polls (S j1) m) j2 ->
  (j1 < fuel)%nat -> (j2 < fuel)%nat -> (Z.to_nat ul_size < fuel)%nat ->
  exists m' vs,
    efc_perform_read_sequence h fuel ul_cmd_st ul_cmd_sp p_ul_buf ul_size
                              p_ul_data m = Returned EFC_RC_OK m' /\
    length vs = Z.to_nat ul_size /\
    bus m' = bus m ++ entry_log h ul_cmd_st m ++ status_reads m (S j1)
             ++ copy_log p_ul_buf p_ul_data 0 vs
             ++ RegWrite FCR (fcr_word h ul_cmd_sp)
                :: status_reads (after_polls (S j1) m) (S j2)
             ++ exit_log m /\
    (forall i, (i < Z.to_nat ul_size)%nat ->
               mem m' (p_ul_buf + 4 * Z.of_nat i) = nth i vs 0) /\
    (separate p_ul_buf p_ul_data ul_size ->
     vs = words (mem m) p_ul_data (Z.to_nat ul_size) /\
     forall i, 0 <= i < ul_size ->
               mem m' (p_ul_buf + 4 * i) = mem m (p_ul_data + 4 * i)).
Proof.
  intros Hbuf Hsize Hfall Hrise Hj1 Hj2 Hn.
  destruct (read_sequence_done_fields h ul_cmd_st ul_cmd_sp p_ul_buf
              ul_size p_ul_data j1 j2 m)
    as (_ & _ & _ & _ & (vs & Hlen & Hbus & Hnth & Hsep)).
  eexists. exists vs. split.
  - apply read_sequence_returns; eassumption.
  - split; [exact Hlen|]. split; [exact Hbus|]. split; assumption.
Qed.

(** The Mode register and the bus log after a call that returned
    [EFC_RC_OK]: the first two accesses read the Mode register and
    write it back with bit 16 set, the last two read it and write it
    back with bit 16 cleared. *)
Lemma read_sequence_returned_mode (h : component_efc) (fuel : nat)
  (ul_cmd_st ul_cmd_sp p_ul_buf ul_size p_ul_data : Z) (m m' : machine) :
  efc_perform_read_sequence h fuel ul_cmd_st ul_cmd_sp p_ul_buf ul_size
                            p_ul_data m = Returned EFC_RC_OK m' ->
  EEFC_FMR m' = Z.land (Z.lor (EEFC_FMR m) (Z.shiftl 1 16))
                       (uint32 (Z.lnot (Z.shiftl 1 16))) /\
  exists middle,
    bus m' = bus m ++ RegRead FMR (EEFC_FMR m)
             :: RegWrite FMR (Z.lor (EEFC_FMR m) (Z.shiftl 1 16))
             :: middle ++ exit_log m.
Proof.
  intro Hrun.
  assert (Hbuf : p_ul_buf <> NULL).
  { intros ->. unfold efc_perform_read_sequence in Hrun. simpl in Hrun.
    discriminate Hrun. }
  destruct (read_sequence_any h ul_cmd_st ul_cmd_sp p_ul_buf ul_size
              p_ul_data fuel m Hbuf)
    as (a & lc & tail & Hbus & _ & _ & _ & Hshape).
  rewrite Hrun in Hbus, Hshape. cbn [machine_of] in Hbus, Hshape.
  destruct Hshape as [[_ E] | [(b & _ & E) | (b & Htail & _ & Hfmr & _)]];
    try discriminate E.
  split; [exact Hfmr|].
  exists ([RegWrite FCR (fcr_word h ul_cmd_st)] ++ status_reads m a ++ lc
          ++ RegWrite FCR (fcr_word h ul_cmd_sp)
             :: status_reads (after_polls a m) b).
  rewrite Hbus, Htail. unfold entry_log. cbn [app].
  do 4 f_equal. rewrite <- !app_assoc. reflexivity.
Qed.

(** C5: after every call that returns [EFC_RC_OK], made with the
    special-read-mode bit (bit 16 of the Mode register) off, the bit is
    restored to that pre-call value.  The function sets it on entry:
    its first two accesses read the Mode register and write it back
    with bit 16 set.  Its last two accesses read the register and write
    it back with bit 16 cleared, so that the final Mode register has
    bit 16 clear, as before the call; every bit of the 32-bit register
    is what it was before the call, and the register value is the
    pre-call value. *)
Theorem read_sequence_restores_mode_bit (h : component_efc) (fuel : nat)
  (ul_cmd_st ul_cmd_sp p_ul_buf ul_size p_ul_data : Z) (m m' : machine) :
  Z.testbit (EEFC_FMR m) 16 = false ->
  efc_perform_read_sequence h fuel ul_cmd_st ul_cmd_sp p_ul_buf ul_size
                            p_ul_data m = Returned EFC_RC_OK m' ->
  (exists middle,
     bus m' = bus m ++ RegRead FMR (EEFC_FMR m)
              :: RegWrite FMR (Z.lor (EEFC_FMR m) (Z.shiftl 1 16))
              :: middle ++ exit_log m) /\
  Z.testbit (Z.lor (EEFC_FMR m) (Z.shiftl 1 16)) 16 = true /\
  Z.testbit (EEFC_FMR m') 16 = false /\
  Z.testbit (EEFC_FMR m') 16 = Z.testbit (EEFC_FMR m) 16 /\
  (forall i, 0 <= i < 32 ->
             Z.testbit (EEFC_FMR m') i = Z.testbit (EEFC_FMR m) i) /\
  (0 <= EEFC_FMR m < 2 ^ 32 -> EEFC_FMR m' = EEFC_FMR m).
Proof.
  intros Hoff Hrun.
  destruct (read_sequence_returned_mode h fuel ul_cmd_st ul_cmd_sp p_ul_buf
              ul_size p_ul_data m m' Hrun) as (Hfmr & Hlog).
  assert (Hbit : forall i, 0 <= i ->
            Z.testbit (EEFC_FMR m') i =
            if i =? 16 then false else Z.testbit (EEFC_FMR m) i && (i <? 32)).
  { intros i Hi. rewrite Hfmr. now apply mode_bit_set_then_cleared. }
  assert (Hall : forall i, 0 <= i < 32 ->
            Z.testbit (EEFC_FMR m') i = Z.testbit (EEFC_FMR m) i).
  { intros i Hi. rewrite Hbit by lia.
    destruct (Z.eqb_spec i 16) as [->|Hne]; [now rewrite Hoff|].
    destruct (Z.ltb_spec i 32); [apply andb_true_r | lia]. }
  split; [exact Hlog|]. split.
  { change (Z.shiftl 1 16) with (2 ^ 16).
    rewrite Z.lor_spec, Z.pow2_bits_eqb by lia. apply orb_true_r. }
  split; [now rewrite Hbit by lia|].
  split; [now rewrite Hoff, Hbit by lia|].
  split; [exact Hall|].
  intro Hrange. apply Z.bits_inj'. intros i Hi.
  destruct (Z.lt_ge_cases i 32) as [Hlt|Hge]; [apply Hall; lia|].
  rewrite Hbit by exact Hi.
  destruct (Z.eqb_spec i 16); [lia|].
  destruct (Z.ltb_spec i 32); [lia|].
  rewrite andb_false_r. symmetry. now apply uint32_high_bits.
Qed.

(** C6: every word [efc_perform_read_sequence] writes to the Command
    register carries the key 0x5A, a zero argument and its command
    code.  With a null buffer nothing is written.  With a buffer given,
    whatever the budget and however far the call has come, the start
    word has been written, first of all writes to the Command register;
    the only other such write is the stop word after it; a call that
    has returned has written both, and while FRDY never falls only the
    start word has been written.  The word built for a command
    code [c] is 0x5A000000 | (c & 0xFF): its key field (bits 31..24) is
    0x5A, its argument (bits 23..8) is 0, and its command field (bits
    7..0) is the command code, which is [c] itself for every code up to
    0xFF. *)
Theorem read_sequence_command_words (h : component_efc) (fuel : nat)
  (ul_cmd_st ul_cmd_sp p_ul_buf ul_size p_ul_data : Z) (m : machine) :
  (p_ul_buf = NULL ->
   bus (machine_of (efc_perform_read_sequence h fuel ul_cmd_st ul_cmd_sp
                      p_ul_buf ul_size p_ul_data m)) = bus m) /\
  (p_ul_buf <> NULL ->
   exists new,
     bus (machine_of (efc_perform_read_sequence h fuel ul_cmd_st ul_cmd_sp
                        p_ul_buf ul_size p_ul_data m)) = bus m ++ new /\
     (fcr_writes new = [fcr_word h ul_cmd_st] \/
      fcr_writes new = [fcr_word h ul_cmd_st; fcr_word h ul_cmd_sp]) /\
     (forall rc m',
        efc_perform_read_sequence h fuel ul_cmd_st ul_cmd_sp p_ul_buf
                                  ul_size p_ul_data m
        = Returned rc m' ->
        fcr_writes new = [fcr_word h ul_cmd_st; fcr_word h ul_cmd_sp]) /\
     ((forall k, frdy h (EEFC_FSR m (polls m + k)%nat) = true) ->
      fcr_writes new = [fcr_word h ul_cmd_st])) /\
  (forall c,
     fcr_word h c = Z.lor 0x5A000000 (Z.land c 0xFF) /\
     fcr_key (fcr_word h c) = 0x5A /\
     fcr_arg (fcr_word h c) = 0 /\
     EEFC_FCR_FARG h 0 = 0 /\
     fcr_cmd (fcr_word h c) = Z.land c 0xFF /\
     (0 <= c <= 0xFF -> fcr_cmd (fcr_word h c) = c)).
Proof.
  split; [|split].
  - intros ->. reflexivity.
  - intro Hbuf.
    destruct (read_sequence_any h ul_cmd_st ul_cmd_sp p_ul_buf ul_size
                p_ul_data fuel m Hbuf)
      as (a & lc & tail & Hbus & Hlc & _ & _ & Hshape).
    exists (entry_log h ul_cmd_st m ++ status_reads m a ++ lc ++ tail).
    split; [exact Hbus|].
    assert (Hw : fcr_writes
                   (entry_log h ul_cmd_st m ++ status_reads m a ++ lc
                    ++ tail) =
                 fcr_word h ul_cmd_st :: fcr_writes tail).
    { rewrite !fcr_writes_app, status_reads_no_fcr.
      rewrite (fcr_writes_copy _ _ _ _ Hlc). reflexivity. }
    assert (Hstuck :
              (forall k, frdy h (EEFC_FSR m (polls m + k)%nat) = true) ->
              fcr_writes (entry_log h ul_cmd_st m ++ status_reads m a ++ lc
                          ++ tail) = [fcr_word h ul_cmd_st]).
    { intro Hready.
      assert (Hbus2 :
        bus (machine_of (efc_perform_read_sequence h fuel ul_cmd_st
                           ul_cmd_sp p_ul_buf ul_size p_ul_data m)) =
        bus m ++ entry_log h ul_cmd_st m ++ status_reads m fuel).
      { rewrite read_sequence_unfold by exact Hbuf.
        destruct (start_issued_fields h ul_cmd_st m)
          as (_ & _ & A3 & A4 & _).
        rewrite do_while_stuck
          by (intros k _; rewrite A3, A4; apply Hready).
        cbn [machine_of].
        destruct (stages_fields h ul_cmd_st ul_cmd_sp fuel 0 [] m
                    (after_polls fuel (start_issued h ul_cmd_st m)))
          as ((_ & _ & _ & _ & G5) & _ & _); auto using app_nil_r. }
      rewrite Hbus in Hbus2. apply app_inv_head in Hbus2.
      rewrite Hbus2, fcr_writes_app, status_reads_no_fcr. reflexivity. }
    rewrite Hw in Hstuck |- *.
    destruct Hshape as [[-> E] | [(b & -> & E) | (b & -> & E & _)]].
    + split; [left; reflexivity|]. split; [|exact Hstuck].
      intros rc m' E'. rewrite E' in E. discriminate E.
    + cbn [fcr_writes] in Hstuck |- *. rewrite status_reads_no_fcr in *.
      split; [right; reflexivity|]. split; [reflexivity | exact Hstuck].
    + cbn [fcr_writes] in Hstuck |- *.
      rewrite fcr_writes_app, status_reads_no_fcr in *.
      split; [right; reflexivity|]. split; [reflexivity | exact Hstuck].
  - intro c. destruct (fcr_word_fields h c) as (K & A & C).
    split; [apply fcr_word_value|]. split; [exact K|]. split; [exact A|].
    split; [|split; [exact C|]].
    + unfold EEFC_FCR_FARG. now rewrite Z.shiftl_0_l, Z.land_0_r.
    + intro Hc. rewrite C. now apply land_0xFF_small.
Qed.

(** C9: whatever the budget and however far the call has come, every
    word of the buffer at an index [i >= ul_size] holds what it held
    before the call.  More generally every address other than those of
    buffer words 0 .. ul_size - 1 holds what it held before, and every
    store the call has made went to one of those words. *)
Theorem read_sequence_buffer_frame (h : component_efc) (fuel : nat)
  (ul_cmd_st ul_cmd_sp p_ul_buf ul_size p_ul_data : Z) (m : machine)
  (i : Z) :
  ul_size <= i ->
  mem (machine_of (efc_perform_read_sequence h fuel ul_cmd_st ul_cmd_sp
                     p_ul_buf ul_size p_ul_data m)) (p_ul_buf + 4 * i)
  = mem m (p_ul_buf + 4 * i) /\
  (forall addr,
     (forall k, 0 <= k < ul_size -> addr <> p_ul_buf + 4 * k) ->
     mem (machine_of (efc_perform_read_sequence h fuel ul_cmd_st ul_cmd_sp
                        p_ul_buf ul_size p_ul_data m)) addr = mem m addr) /\
  (exists new,
     bus (machine_of (efc_perform_read_sequence h fuel ul_cmd_st ul_cmd_sp
                        p_ul_buf ul_size p_ul_data m)) = bus m ++ new /\
     Forall (store_within p_ul_buf ul_size) new).
Proof.
  intro Hi.
  assert (Hframe : forall addr,
     (forall k, 0 <= k < ul_size -> addr <> p_ul_buf + 4 * k) ->
     mem (machine_of (efc_perform_read_sequence h fuel ul_cmd_st ul_cmd_sp
                        p_ul_buf ul_size p_ul_data m)) addr = mem m addr).
  { destruct (Z.eq_dec p_ul_buf NULL) as [->|Hbuf]; [reflexivity|].
    destruct (read_sequence_any h ul_cmd_st ul_cmd_sp p_ul_buf ul_size
                p_ul_data fuel m Hbuf)
      as (a & lc & tail & _ & _ & _ & Hmem & _).
    exact Hmem. }
  split; [apply Hframe; intros k Hk; lia|]. split; [exact Hframe|].
  destruct (Z.eq_dec p_ul_buf NULL) as [->|Hbuf].
  - exists []. rewrite app_nil_r. split; [reflexivity | constructor].
  - destruct (read_sequence_any h ul_cmd_st ul_cmd_sp p_ul_buf ul_size
                p_ul_data fuel m Hbuf)
      as (a & lc & tail & Hbus & Hlc & _ & _ & Hshape).
    exists (entry_log h ul_cmd_st m ++ status_reads m a ++ lc ++ tail).
    split; [exact Hbus|].
    apply Forall_app. split; [repeat constructor|].
    apply Forall_app. split; [apply store_within_status|].
    apply Forall_app. split; [eapply store_within_copy; exact Hlc|].
    destruct Hshape as [[-> _] | [(b & -> & _) | (b & -> & _)]].
    + constructor.
    + constructor; [exact I | apply store_within_status].
    + constructor; [exact I|]. apply Forall_app.
      split; [apply store_within_status | repeat constructor].
Qed.

(** * The theorems at work on the SAM4

    Each hypothesis of the theorems above is met by a concrete run. *)

Lemma responsive_falls : falls_after sam4 (idle 0 responsive) 0.
Proof. split; [intros k Hk; lia | reflexivity]. Defined.

Lemma responsive_rises :
  rises_after sam4 (after_polls 1 (idle 0 responsive)) 1.
Proof.
  split; [intros [|k] Hk; [reflexivity | lia] | reflexivity].
Defined.

Lemma ram_buffer_not_null : ram_buffer <> NULL.
Proof. unfold ram_buffer, NULL. lia. Defined.

Lemma lock_error_rises : rises_after sam4 (idle 0 lock_error) 2.
Proof.
  split; [intros [|[|k]] Hk; [reflexivity | reflexivity | lia] | reflexivity].
Defined.

(** When FRDY never falls the unique identifier is never copied; with a
    responsive controller the call returns after one poll and two; when
    FRDY never rises the call stays behind the stop command. *)
Lemma read_sequence_edge_order_witness :
  (exists m', read_unique_id (idle 0 always_ready) = Running m' /\
              mem m' = flash_window /\
              EEFC_FCR m' = fcr_word sam4 EFC_FCMD_STUI) /\
  (exists m', read_unique_id (idle 0 responsive) = Returned EFC_RC_OK m' /\
              polls m' = 3%nat) /\
  (exists m', read_unique_id (idle 0 never_ready) = Running m' /\
              EEFC_FCR m' = fcr_word sam4 EFC_FCMD_SPUI).
Proof.
  split; [|split].
  - destruct (proj1 (read_sequence_edge_order sam4 8 EFC_FCMD_STUI
                       EFC_FCMD_SPUI ram_buffer 4 read_window
                       (idle 0 always_ready) ram_buffer_not_null))
      as (m' & Hrun & _ & _ & Hmem & Hfcr).
    + intro k. reflexivity.
    + exists m'. split; [exact Hrun|]. split; [exact Hmem | exact Hfcr].
  - destruct (proj1 (proj2 (read_sequence_edge_order sam4 8 EFC_FCMD_STUI
                       EFC_FCMD_SPUI ram_buffer 4 read_window
                       (idle 0 responsive) ram_buffer_not_null)) 0%nat 1%nat)
      as (m' & vs & Hrun & _ & _ & Hpolls);
      [ lia | exact responsive_falls | exact responsive_rises
      | lia | lia | simpl; lia | ].
    exists m'. split; [exact Hrun | exact Hpolls].
  - destruct (proj2 (proj2 (read_sequence_edge_order sam4 8 EFC_FCMD_STUI
                       EFC_FCMD_SPUI ram_buffer 4 read_window
                       (idle 0 never_ready) ram_buffer_not_null)) 0%nat)
      as (m' & Hrun & Hfcr & _);
      [ lia | split; [intros k Hk; lia | reflexivity]
      | intro k; reflexivity | lia | simpl; lia | ].
    exists m'. split; [exact Hrun | exact Hfcr].
Defined.

(** Reading the unique identifier into RAM copies the four words of the
    read window. *)
Lemma read_sequence_copies_words_witness :
  exists m', read_unique_id (idle 0 responsive) = Returned EFC_RC_OK m' /\
    forall i, 0 <= i < 4 ->
      mem m' (ram_buffer + 4 * i) = flash_window (read_window + 4 * i).
Proof.
  destruct (read_sequence_copies_words sam4 8 0 1 EFC_FCMD_STUI EFC_FCMD_SPUI
              ram_buffer 4 read_window (idle 0 responsive))
    as (m' & vs & Hrun & _ & _ & _ & Hsep);
    [ exact ram_buffer_not_null | lia | exact responsive_falls
    | exact responsive_rises | lia | lia | simpl; lia | ].
  exists m'. split; [exact Hrun|].
  apply Hsep. unfold separate, ram_buffer, read_window. lia.
Defined.

(** A lock error reported with FRDY is returned as 4, FRDY masked out. *)
Lemma perform_fcr_error_flags_witness :
  exists m', efc_perform_fcr sam4 8 set_lock_bit_1 (idle 0 lock_error)
             = Returned 4 m' /\ polls m' = 3%nat.
Proof.
  exact (proj1 (perform_fcr_error_flags sam4 set_lock_bit_1 8 2
                  (idle 0 lock_error) lock_error_rises ltac:(lia))).
Defined.

(** The same command against the same responses returns the same 4,
    whatever the Mode register and the polls made before. *)
Lemma perform_fcr_deterministic_witness :
  exists m2', efc_perform_fcr sam4 9 set_lock_bit_1 later_lock_error
              = Returned 4 m2' /\
              (polls m2' + 0 = 3 + 3)%nat /\
              EEFC_FCR m2' = set_lock_bit_1.
Proof.
  refine (perform_fcr_deterministic sam4 set_lock_bit_1 8 9
            (idle 0 lock_error) later_lock_error
            (machine_of (efc_perform_fcr sam4 8 set_lock_bit_1
                           (idle 0 lock_error)))
            4 _ _ _).
  - intro k. simpl. f_equal. lia.
  - vm_compute. reflexivity.
  - lia.
Defined.

(** With the Mode register clear before the call it is clear after,
    and the register is what it was. *)
Lemma read_sequence_restores_mode_bit_witness :
  Z.testbit (EEFC_FMR (machine_of (read_unique_id (idle 0 responsive)))) 16
  = Z.testbit (EEFC_FMR (idle 0 responsive)) 16 /\
  EEFC_FMR (machine_of (read_unique_id (idle 0 responsive))) =
  EEFC_FMR (idle 0 responsive).
Proof.
  destruct (read_sequence_restores_mode_bit sam4 8 EFC_FCMD_STUI
              EFC_FCMD_SPUI ram_buffer 4 read_window (idle 0 responsive)
              (machine_of (read_unique_id (idle 0 responsive))))
    as (_ & _ & _ & Hsame & _ & Hreg).
  - reflexivity.
  - vm_compute. reflexivity.
  - split; [exact Hsame|]. apply Hreg. simpl. lia.
Defined.

(** Reading the unique identifier writes the start word 0x5A00000E and
    then the stop word 0x5A00000F to the Command register; while FRDY
    never falls only the start word has been written. *)
Lemma read_sequence_command_words_witness :
  (exists new,
     bus (machine_of (efc_perform_read_sequence sam4 8 EFC_FCMD_STUI
                        EFC_FCMD_SPUI ram_buffer 4 read_window
                        (idle 0 responsive)))
     = bus (idle 0 responsive) ++ new /\
     fcr_writes new = [0x5A00000E; 0x5A00000F]) /\
  (exists new,
     bus (machine_of (efc_perform_read_sequence sam4 8 EFC_FCMD_STUI
                        EFC_FCMD_SPUI ram_buffer 4 read_window
                        (idle 0 always_ready)))
     = bus (idle 0 always_ready) ++ new /\
     fcr_writes new = [0x5A00000E]) /\
  fcr_cmd (fcr_word sam4 EFC_FCMD_STUI) = EFC_FCMD_STUI /\
  fcr_cmd (fcr_word sam4 EFC_FCMD_SPUI) = EFC_FCMD_SPUI.
Proof.
  split; [|split].
  - destruct (proj1 (proj2 (read_sequence_command_words sam4 8 EFC_FCMD_STUI
                       EFC_FCMD_SPUI ram_buffer 4 read_window
                       (idle 0 responsive))) ram_buffer_not_null)
      as (new & Hbus & _ & Hret & _).
    exists new. split; [exact Hbus|].
    refine (Hret EFC_RC_OK
              (machine_of (read_unique_id (idle 0 responsive))) _).
    vm_compute. reflexivity.
  - destruct (proj1 (proj2 (read_sequence_command_words sam4 8 EFC_FCMD_STUI
                       EFC_FCMD_SPUI ram_buffer 4 read_window
                       (idle 0 always_ready))) ram_buffer_not_null)
      as (new & Hbus & _ & _ & Hstuck).
    exists new. split; [exact Hbus|]. apply Hstuck. intro k. reflexivity.
  - pose proof (proj2 (proj2 (read_sequence_command_words sam4 8
                       EFC_FCMD_STUI EFC_FCMD_SPUI ram_buffer 4 read_window
                       (idle 0 responsive)))) as Hw.
    split.
    + apply (Hw EFC_FCMD_STUI). unfold EFC_FCMD_STUI. lia.
    + apply (Hw EFC_FCMD_SPUI). unfold EFC_FCMD_SPUI. lia.
Defined.

(** The word after the four copied ones is not written. *)
Lemma read_sequence_buffer_frame_witness :
  mem (machine_of (read_unique_id (idle 0 responsive))) (ram_buffer + 4 * 4)
  = mem (idle 0 responsive) (ram_buffer + 4 * 4).
Proof.
  exact (proj1 (read_sequence_buffer_frame sam4 8 EFC_FCMD_STUI EFC_FCMD_SPUI
                  ram_buffer 4 read_window (idle 0 responsive) 4
                  ltac:(lia))).
Defined.

(** The run that returns, returns [EFC_RC_OK]. *)
Lemma read_sequence_return_codes_witness :
  read_unique_id (idle 0 responsive) =
    Returned EFC_RC_OK (machine_of (read_unique_id (idle 0 responsive))) /\
  ((EFC_RC_OK = EFC_RC_OK /\ EFC_RC_OK = 0 /\ ram_buffer <> NULL) \/
   (EFC_RC_OK = EFC_RC_INVALID /\ EFC_RC_OK = 2 /\ ram_buffer = NULL /\
    machine_of (read_unique_id (idle 0 responsive)) = idle 0 responsive)).
Proof.
  split; [vm_compute; reflexivity|].
  refine (proj1 (read_sequence_return_codes sam4 8 EFC_FCMD_STUI
                   EFC_FCMD_SPUI ram_buffer 4 read_window (idle 0 responsive)
                   (machine_of (read_unique_id (idle 0 responsive)))
                   EFC_RC_OK _)).
  vm_compute. reflexivity.
Defined.

(** * Further properties of the driver *)

(** ** Returning runs of the read sequence *)

Section Returning.

Variable h : component_efc.
Variables ul_cmd_st ul_cmd_sp p_ul_buf ul_size p_ul_data : Z.

(** A call that returned saw FRDY fall and rise, had budget for its three
    loops, and left [read_sequence_done]. *)
Lemma read_sequence_returned_inv (fuel : nat) (m m' : machine) (rc : Z) :
  p_ul_buf <> NULL ->
  0 <= ul_size < 2 ^ 32 ->
  efc_perform_read_sequence h fuel ul_cmd_st ul_cmd_sp p_ul_buf ul_size
                            p_ul_data m = Returned rc m' ->
  exists j1 j2,
    (j1 < fuel)%nat /\ (j2 < fuel)%nat /\ (Z.to_nat ul_size < fuel)%nat /\
    falls_after h m j1 /\ rises_after h (after_polls (S j1) m) j2 /\
    rc = EFC_RC_OK /\
    m' = read_sequence_done h ul_cmd_st ul_cmd_sp p_ul_buf ul_size p_ul_data
                            j1 j2 m.
Proof.
  intros Hbuf Hsize. rewrite read_sequence_unfold by exact Hbuf.
  destruct (start_issued_fields h ul_cmd_st m) as (_ & _ & A3 & A4 & _).
  destruct (do_while_cases (frdy h) fuel (start_issued h ul_cmd_st m))
    as [(j1 & Hj1 & Hb1 & Ha1 & E1) | (_ & E1)]; rewrite E1;
    [|discriminate].
  rewrite A3, A4 in Hb1, Ha1.
  rewrite for_copy_run by lia. rewrite Z.sub_0_r.
  destruct (Nat.ltb_spec (Z.to_nat ul_size) fuel) as [Hn|_]; [|discriminate].
  set (m3 := after_copy _ _ _ _ _).
  assert (E3 : EEFC_FSR (stop_issued h ul_cmd_sp m3) = EEFC_FSR m /\
               polls (stop_issued h ul_cmd_sp m3) = (polls m + S j1)%nat).
  { destruct (stop_issued_fields h ul_cmd_sp m3) as (_ & _ & S3 & S4 & _).
    rewrite S3, S4. subst m3.
    destruct (after_copy_fields p_ul_buf p_ul_data (Z.to_nat ul_size) 0
                (after_polls (S j1) (start_issued h ul_cmd_st m)))
      as (_ & _ & Q3 & Q4).
    rewrite Q3, Q4.
    destruct (after_polls_fields (S j1) (start_issued h ul_cmd_st m))
      as (_ & _ & R3 & R4 & _).
    rewrite R3, R4, A3, A4. split; reflexivity. }
  destruct E3 as [E3 E4].
  destruct (do_while_cases (fun s => negb (frdy h s)) fuel
              (stop_issued h ul_cmd_sp m3))
    as [(j2 & Hj2 & Hb2 & Ha2 & E2) | (_ & E2)]; rewrite E2;
    [|discriminate].
  rewrite E3, E4 in Hb2, Ha2.
  intros [= <- <-]. exists j1, j2.
  destruct (after_polls_fields (S j1) m) as (_ & _ & P3 & P4 & _).
  repeat split; auto.
  - intros k Hk. rewrite P3, P4. apply negb_true_false. now apply Hb2.
  - rewrite P3, P4. apply negb_false_true. exact Ha2.
Qed.

(** Memory after a returning call is memory after the passes of the
    copy loop. *)
Lemma read_sequence_done_mem (j1 j2 : nat) (m : machine) :
  mem (read_sequence_done h ul_cmd_st ul_cmd_sp p_ul_buf ul_size p_ul_data
                          j1 j2 m) =
  mem (after_copy (Z.to_nat ul_size) p_ul_buf p_ul_data 0
                  (after_polls (S j1) (start_issued h ul_cmd_st m))).
Proof.
  unfold read_sequence_done.
  set (m3 := after_copy _ _ _ _ _).
  destruct (read_mode_left_fields
              (after_polls (S j2) (stop_issued h ul_cmd_sp m3)))
    as (_ & _ & _ & _ & L5 & _).
  destruct (after_polls_fields (S j2) (stop_issued h ul_cmd_sp m3))
    as (_ & _ & _ & _ & P5).
  destruct (stop_issued_fields h ul_cmd_sp m3) as (_ & _ & _ & _ & S5 & _).
  now rewrite L5, P5, S5.
Qed.

Lemma polled_start_mem (j : nat) (m : machine) :
  mem (after_polls j (start_issued h ul_cmd_st m)) = mem m.
Proof.
  destruct (after_polls_fields j (start_issued h ul_cmd_st m))
    as (_ & _ & _ & _ & P5).
  destruct (start_issued_fields h ul_cmd_st m) as (_ & _ & _ & _ & A5 & _).
  now rewrite P5, A5.
Qed.

End Returning.

(** ** Passes of the copy loop on overlapping arrays *)

Lemma after_copy_mem_ext (p_ul_buf p_ul_data : Z) (k : nat) :
  forall ul_cnt m1 m2,
    mem m1 = mem m2 ->
    mem (after_copy k p_ul_buf p_ul_data ul_cnt m1) =
    mem (after_copy k p_ul_buf p_ul_data ul_cnt m2).
Proof.
  induction k as [|k IH]; intros ul_cnt m1 m2 E; simpl after_copy.
  - exact E.
  - apply IH. unfold copy1, bind, load, store. cbn. now rewrite E.
Qed.

(** A forward copy is safe whenever no word is stored before it is
    loaded: no destination word of an earlier pass is the source word
    of a later one. *)
Lemma after_copy_forward (p_ul_buf p_ul_data : Z) (k : nat) :
  forall ul_cnt m,
    (forall i j, ul_cnt <= j -> j < i -> i < ul_cnt + Z.of_nat k ->
                 p_ul_buf + 4 * j <> p_ul_data + 4 * i) ->
    forall i, ul_cnt <= i < ul_cnt + Z.of_nat k ->
      mem (after_copy k p_ul_buf p_ul_data ul_cnt m) (p_ul_buf + 4 * i) =
      mem m (p_ul_data + 4 * i).
Proof.
  induction k as [|k IH]; intros ul_cnt m Hfwd i Hi; simpl after_copy.
  - lia.
  - destruct (Z.eq_dec i ul_cnt) as [->|Hne].
    + rewrite after_copy_frame by (intros i' Hi'; lia).
      rewrite copy1_mem, Z.eqb_refl. reflexivity.
    + rewrite IH; [| intros i' j' H1 H2 H3; apply Hfwd; lia | lia].
      rewrite copy1_mem.
      destruct (Z.eqb_spec (p_ul_data + 4 * i) (p_ul_buf + 4 * ul_cnt))
        as [E|]; auto.
      exfalso. apply (Hfwd i ul_cnt); [lia | lia | lia | now symmetry].
Qed.

Lemma after_copy_snoc (p_ul_buf p_ul_data : Z) (k : nat) : forall ul_cnt m,
  after_copy (S k) p_ul_buf p_ul_data ul_cnt m =
  copy1 p_ul_buf p_ul_data (ul_cnt + Z.of_nat k)
        (after_copy k p_ul_buf p_ul_data ul_cnt m).
Proof.
  induction k as [|k IH]; intros ul_cnt m.
  - cbn [after_copy]. change (Z.of_nat 0) with 0. now rewrite Z.add_0_r.
  - change (after_copy (S (S k)) p_ul_buf p_ul_data ul_cnt m)
      with (after_copy (S k) p_ul_buf p_ul_data (ul_cnt + 1)
                       (copy1 p_ul_buf p_ul_data ul_cnt m)).
    rewrite IH. cbn [after_copy]. f_equal. lia.
Qed.

(** With the buffer [d] words above the source, a forward copy repeats
    the first [d] source words. *)
Lemma after_copy_periodic (p_ul_data d : Z) (m : machine) :
  0 < d ->
  forall k i, 0 <= i < Z.of_nat k ->
    mem (after_copy k (p_ul_data + 4 * d) p_ul_data 0 m)
        (p_ul_data + 4 * d + 4 * i) =
    mem m (p_ul_data + 4 * (i mod d)).
Proof.
  intros Hd. induction k as [|k IH]; intros i Hi; [lia|].
  rewrite after_copy_snoc, copy1_mem, Z.add_0_l.
  destruct (Z.eqb_spec (p_ul_data + 4 * d + 4 * i)
                       (p_ul_data + 4 * d + 4 * Z.of_nat k)) as [E|Hne].
  - assert (i = Z.of_nat k) by lia. subst i.
    destruct (Z.lt_ge_cases (Z.of_nat k) d) as [Hlt|Hge].
    + rewrite after_copy_frame by (intros j Hj; lia).
      now rewrite Z.mod_small by lia.
    + replace (p_ul_data + 4 * Z.of_nat k)
        with (p_ul_data + 4 * d + 4 * (Z.of_nat k - d)) by lia.
      rewrite IH by lia. do 2 f_equal.
      replace (Z.of_nat k) with (Z.of_nat k - d + 1 * d) at 2 by lia.
      now rewrite Z.mod_add by lia.
  - apply IH. lia.
Qed.

(** ** The Mode register in every run *)

(** With a buffer given, a run that has not returned has the Mode
    register with bit 16 set; one that returned has it set and cleared
    again. *)
Lemma read_sequence_mode_any (h : component_efc) (fuel : nat)
  (ul_cmd_st ul_cmd_sp p_ul_buf ul_size p_ul_data : Z) (m : machine) :
  p_ul_buf <> NULL ->
  (exists m',
     efc_perform_read_sequence h fuel ul_cmd_st ul_cmd_sp p_ul_buf ul_size
                               p_ul_data m = Running m' /\
     EEFC_FMR m' = Z.lor (EEFC_FMR m) (Z.shiftl 1 16)) \/
  (exists m',
     efc_perform_read_sequence h fuel ul_cmd_st ul_cmd_sp p_ul_buf ul_size
                               p_ul_data m = Returned EFC_RC_OK m' /\
     EEFC_FMR m' = Z.land (Z.lor (EEFC_FMR m) (Z.shiftl 1 16))
                          (uint32 (Z.lnot (Z.shiftl 1 16)))).
Proof.
  intro Hbuf. rewrite read_sequence_unfold by exact Hbuf.
  destruct (start_issued_fields h ul_cmd_st m) as (A1 & _).
  destruct (do_while_machine (frdy h) fuel (start_issued h ul_cmd_st m))
    as (a & _ & Ea).
  destruct (after_polls_fields a (start_issued h ul_cmd_st m)) as (P1 & _).
  destruct (do_while_FSR fuel (frdy h) (start_issued h ul_cmd_st m))
    as [v m2|m2]; cbn [machine_of] in Ea; subst m2.
  - destruct (for_copy_any p_ul_buf ul_size p_ul_data fuel 0
                (after_polls a (start_issued h ul_cmd_st m)) ltac:(lia))
      as (F1 & _).
    destruct (for_copy fuel p_ul_buf ul_size p_ul_data 0
                (after_polls a (start_issued h ul_cmd_st m)))
      as [[] m3|m3]; cbn [machine_of] in F1.
    + destruct (do_while_machine (fun s => negb (frdy h s)) fuel
                  (stop_issued h ul_cmd_sp m3)) as (b & _ & Eb).
      destruct (after_polls_fields b (stop_issued h ul_cmd_sp m3))
        as (Q1 & _).
      destruct (stop_issued_fields h ul_cmd_sp m3) as (S1 & _).
      destruct (do_while_FSR fuel _ (stop_issued h ul_cmd_sp m3))
        as [v' m5|m5]; cbn [machine_of] in Eb; subst m5.
      * right. eexists. split; [reflexivity|].
        destruct (read_mode_left_fields
                    (after_polls b (stop_issued h ul_cmd_sp m3)))
          as (L1 & _).
        now rewrite L1, Q1, S1, F1, P1, A1.
      * left. eexists. split; [reflexivity|].
        now rewrite Q1, S1, F1, P1, A1.
    + left. eexists. split; [reflexivity|]. now rewrite F1, P1, A1.
  - left. eexists. split; [reflexivity|]. now rewrite P1, A1.
Qed.

Lemma mode_bit_set_bits (fmr i : Z) :
  0 <= i ->
  Z.testbit (Z.lor fmr (Z.shiftl 1 16)) i =
  if i =? 16 then true else Z.testbit fmr i.
Proof.
  intro Hi. change (Z.shiftl 1 16) with (2 ^ 16).
  rewrite Z.lor_spec, Z.pow2_bits_eqb by lia. rewrite (Z.eqb_sym 16 i).
  destruct (i =? 16); [apply orb_true_r | apply orb_false_r].
Qed.

(** ** Extra properties of [efc_perform_read_sequence] *)

(** X1: a read sequence of zero words still goes through the whole
    handshake.  With a buffer given and a controller that lets FRDY fall
    and rise, the call returns [EFC_RC_OK]; it has set the Mode bit,
    written the start command, polled, written the stop command, polled
    and cleared the Mode bit, and has accessed no memory: memory is what
    it was. *)
Theorem read_sequence_zero_words (h : component_efc) (fuel j1 j2 : nat)
  (ul_cmd_st ul_cmd_sp p_ul_buf p_ul_data : Z) (m : machine) :
  p_ul_buf <> NULL ->
  falls_after h m j1 ->
  rises_after h (after_polls (S j1) m) j2 ->
  (j1 < fuel)%nat -> (j2 < fuel)%nat ->
  exists m',
    efc_perform_read_sequence h fuel ul_cmd_st ul_cmd_sp p_ul_buf 0
                              p_ul_data m = Returned EFC_RC_OK m' /\
    mem m' = mem m /\
    bus m' = bus m ++ entry_log h ul_cmd_st m ++ status_reads m (S j1)
             ++ RegWrite FCR (fcr_word h ul_cmd_sp)
                :: status_reads (after_polls (S j1) m) (S j2)
             ++ exit_log m.
Proof.
  intros Hbuf Hfall Hrise Hj1 Hj2.
  eexists. split; [|split].
  - apply read_sequence_returns; try eassumption; simpl; lia.
  - rewrite read_sequence_done_mem. change (Z.to_nat 0) with 0%nat.
    cbn [after_copy]. apply polled_start_mem.
  - destruct (read_sequence_done_fields h ul_cmd_st ul_cmd_sp p_ul_buf 0
                p_ul_data j1 j2 m)
      as (_ & _ & _ & _ & (vs & Hlen & Hbus & _)).
    destruct vs; [|discriminate Hlen]. exact Hbus.
Qed.

(** X2: the copy runs forward, so a buffer that lies at or below the
    source may overlap it: whenever [p_ul_buf <= p_ul_data], a returning
    call leaves in buffer word [i] what source word [i] held before the
    call, for every [i < ul_size]. *)
Theorem read_sequence_buffer_below_source (h : component_efc)
  (fuel j1 j2 : nat) (ul_cmd_st ul_cmd_sp p_ul_buf ul_size p_ul_data : Z)
  (m : machine) :
  p_ul_buf <> NULL ->
  0 <= ul_size < 2 ^ 32 ->
  p_ul_buf <= p_ul_data ->
  falls_after h m j1 ->
  rises_after h (after_polls (S j1) m) j2 ->
  (j1 < fuel)%nat -> (j2 < fuel)%nat -> (Z.to_nat ul_size < fuel)%nat ->
  exists m',
    efc_perform_read_sequence h fuel ul_cmd_st ul_cmd_sp p_ul_buf ul_size
                              p_ul_data m = Returned EFC_RC_OK m' /\
    forall i, 0 <= i < ul_size ->
              mem m' (p_ul_buf + 4 * i) = mem m (p_ul_data + 4 * i).
Proof.
  intros Hbuf Hsize Hbelow Hfall Hrise Hj1 Hj2 Hn.
  eexists. split.
  - apply read_sequence_returns; eassumption.
  - intros i Hi. rewrite read_sequence_done_mem.
    rewrite after_copy_forward; [| intros i' j' H1 H2 H3; lia | lia].
    now rewrite polled_start_mem.
Qed.

(** X3: the copy is not a [memmove].  With the buffer [d > 0] words
    above the source, each stored word is loaded again [d] passes
    later, so a returning call leaves in buffer word [i] what source
    word [i mod d] held before the call: the first [d] source words,
    repeated. *)
Theorem read_sequence_buffer_above_source (h : component_efc)
  (fuel j1 j2 : nat) (ul_cmd_st ul_cmd_sp ul_size p_ul_data d : Z)
  (m : machine) :
  p_ul_data + 4 * d <> NULL ->
  0 < d ->
  0 <= ul_size < 2 ^ 32 ->
  falls_after h m j1 ->
  rises_after h (after_polls (S j1) m) j2 ->
  (j1 < fuel)%nat -> (j2 < fuel)%nat -> (Z.to_nat ul_size < fuel)%nat ->
  exists m',
    efc_perform_read_sequence h fuel ul_cmd_st ul_cmd_sp
                              (p_ul_data + 4 * d) ul_size p_ul_data m
    = Returned EFC_RC_OK m' /\
    forall i, 0 <= i < ul_size ->
              mem m' (p_ul_data + 4 * d + 4 * i) =
              mem m (p_ul_data + 4 * (i mod d)).
Proof.
  intros Hbuf Hd Hsize Hfall Hrise Hj1 Hj2 Hn.
  eexists. split.
  - apply read_sequence_returns; eassumption.
  - intros i Hi. rewrite read_sequence_done_mem.
    rewrite after_copy_periodic by lia.
    now rewrite polled_start_mem.
Qed.

(** X4: a call that has not returned leaves the special read mode on.
    With a buffer given, whatever the budget, a run that is still in one
    of its loops has the Mode register of before the call with bit 16
    set: the bit is cleared only on the way out. *)
Theorem read_sequence_hang_keeps_read_mode (h : component_efc) (fuel : nat)
  (ul_cmd_st ul_cmd_sp p_ul_buf ul_size p_ul_data : Z) (m m' : machine) :
  p_ul_buf <> NULL ->
  efc_perform_read_sequence h fuel ul_cmd_st ul_cmd_sp p_ul_buf ul_size
                            p_ul_data m = Running m' ->
  EEFC_FMR m' = Z.lor (EEFC_FMR m) (Z.shiftl 1 16) /\
  Z.testbit (EEFC_FMR m') 16 = true.
Proof.
  intros Hbuf Hrun.
  destruct (read_sequence_mode_any h fuel ul_cmd_st ul_cmd_sp p_ul_buf
              ul_size p_ul_data m Hbuf)
    as [(m1 & E & Hfmr) | (m1 & E & _)]; rewrite Hrun in E;
    [|discriminate E].
  injection E as <-. split; [exact Hfmr|].
  rewrite Hfmr, mode_bit_set_bits by lia. reflexivity.
Qed.

(** X5: bit 16 is the only bit of the Mode register the read sequence
    ever changes.  Whatever the arguments, the budget and the outcome,
    each of the other 31 bits of the Mode register is afterwards what
    it was before the call. *)
Theorem read_sequence_mode_other_bits (h : component_efc) (fuel : nat)
  (ul_cmd_st ul_cmd_sp p_ul_buf ul_size p_ul_data : Z) (m : machine)
  (i : Z) :
  0 <= i < 32 -> i <> 16 ->
  Z.testbit
    (EEFC_FMR (machine_of (efc_perform_read_sequence h fuel ul_cmd_st
                             ul_cmd_sp p_ul_buf ul_size p_ul_data m))) i
  = Z.testbit (EEFC_FMR m) i.
Proof.
  intros Hi Hne.
  destruct (Z.eq_dec p_ul_buf NULL) as [->|Hbuf]; [reflexivity|].
  destruct (read_sequence_mode_any h fuel ul_cmd_st ul_cmd_sp p_ul_buf
              ul_size p_ul_data m Hbuf)
    as [(m1 & E & Hfmr) | (m1 & E & Hfmr)]; rewrite E; cbn [machine_of];
    rewrite Hfmr.
  - rewrite mode_bit_set_bits by lia.
    destruct (Z.eqb_spec i 16); [contradiction | reflexivity].
  - rewrite mode_bit_set_then_cleared by lia.
    destruct (Z.eqb_spec i 16); [contradiction|].
    destruct (Z.ltb_spec i 32); [apply andb_true_r | lia].
Qed.

Lemma read_sequence_done_frame (h : component_efc)
  (ul_cmd_st ul_cmd_sp p_ul_buf ul_size p_ul_data : Z) (j1 j2 : nat)
  (m : machine) (a : Z) :
  (forall i, 0 <= i < ul_size -> a <> p_ul_buf + 4 * i) ->
  mem (read_sequence_done h ul_cmd_st ul_cmd_sp p_ul_buf ul_size p_ul_data
                          j1 j2 m) a = mem m a.
Proof.
  intro Ha. rewrite read_sequence_done_mem.
  rewrite after_copy_frame by (intros i Hi; apply Ha; lia).
  now rewrite polled_start_mem.
Qed.

Lemma fcr_word_low_byte (h : component_efc) (ul_cmd : Z) :
  fcr_word h (Z.land ul_cmd 0xFF) = fcr_word h ul_cmd.
Proof.
  rewrite !fcr_word_value, <- Z.land_assoc.
  change (Z.land 0xFF 0xFF) with 0xFF. reflexivity.
Qed.

(** X6: the read sequence looks at nothing of the Status register but
    FRDY, and never reports a hardware error.  If two machines agree on
    Mode register and memory, and their controllers agree on FRDY at
    every poll (whatever the error flags), then when the call returns on
    the first it returns the same code on the second, after as many
    polls, leaving the same memory, Mode and Command registers. *)
Theorem read_sequence_ignores_error_flags (h : component_efc) (fuel : nat)
  (ul_cmd_st ul_cmd_sp p_ul_buf ul_size p_ul_data : Z)
  (m1 m2 m1' : machine) (rc : Z) :
  p_ul_buf <> NULL ->
  0 <= ul_size < 2 ^ 32 ->
  EEFC_FMR m1 = EEFC_FMR m2 ->
  mem m1 = mem m2 ->
  (forall k, frdy h (EEFC_FSR m1 (polls m1 + k)%nat) =
             frdy h (EEFC_FSR m2 (polls m2 + k)%nat)) ->
  efc_perform_read_sequence h fuel ul_cmd_st ul_cmd_sp p_ul_buf ul_size
                            p_ul_data m1 = Returned rc m1' ->
  exists m2',
    efc_perform_read_sequence h fuel ul_cmd_st ul_cmd_sp p_ul_buf ul_size
                              p_ul_data m2 = Returned rc m2' /\
    rc = EFC_RC_OK /\
    mem m2' = mem m1' /\
    EEFC_FMR m2' = EEFC_FMR m1' /\
    EEFC_FCR m2' = EEFC_FCR m1' /\
    (polls m2' + polls m1 = polls m1' + polls m2)%nat.
Proof.
  intros Hbuf Hsize Hfmr Hmem Htr Hrun.
  destruct (read_sequence_returned_inv h ul_cmd_st ul_cmd_sp p_ul_buf ul_size
              p_ul_data fuel m1 m1' rc Hbuf Hsize Hrun)
    as (j1 & j2 & Hj1 & Hj2 & Hn & [Hf1 Hf2] & [Hr1 Hr2] & -> & ->).
  destruct (after_polls_fields (S j1) m1) as (_ & _ & P3 & P4 & _).
  destruct (after_polls_fields (S j1) m2) as (_ & _ & Q3 & Q4 & _).
  rewrite P3, P4 in Hr1, Hr2.
  exists (read_sequence_done h ul_cmd_st ul_cmd_sp p_ul_buf ul_size p_ul_data
                             j1 j2 m2).
  split.
  - apply read_sequence_returns; auto.
    + split.
      * intros k Hk. rewrite <- Htr. now apply Hf1.
      * rewrite <- Htr. exact Hf2.
    + split.
      * intros k Hk. rewrite Q3, Q4, <- Nat.add_assoc, <- Htr, Nat.add_assoc.
        now apply Hr1.
      * rewrite Q3, Q4, <- Nat.add_assoc, <- Htr, Nat.add_assoc. exact Hr2.
  - split; [reflexivity|].
    destruct (read_sequence_done_fields h ul_cmd_st ul_cmd_sp p_ul_buf
                ul_size p_ul_data j1 j2 m1) as (A1 & A2 & _ & A4 & _).
    destruct (read_sequence_done_fields h ul_cmd_st ul_cmd_sp p_ul_buf
                ul_size p_ul_data j1 j2 m2) as (B1 & B2 & _ & B4 & _).
    rewrite A1, A2, A4, B1, B2, B4, Hfmr, !read_sequence_done_mem.
    split; [|split; [reflexivity | split; [reflexivity | lia]]].
    apply after_copy_mem_ext. rewrite !polled_start_mem. now symmetry.
Qed.

(** X7: only the low byte of a command code reaches the Command
    register.  [EEFC_FCR_FCMD] masks the code with the 8-bit field, so
    a call with codes [ul_cmd_st] and [ul_cmd_sp] is the same
    computation as the call with their low bytes: a code above 0xFF is
    issued as another command, and no bit of it reaches the argument or
    the key. *)
Theorem read_sequence_command_low_byte (h : component_efc) (fuel : nat)
  (ul_cmd_st ul_cmd_sp p_ul_buf ul_size p_ul_data : Z) (m : machine) :
  efc_perform_read_sequence h fuel ul_cmd_st ul_cmd_sp p_ul_buf ul_size
                            p_ul_data m =
  efc_perform_read_sequence h fuel (Z.land ul_cmd_st 0xFF)
                            (Z.land ul_cmd_sp 0xFF) p_ul_buf ul_size
                            p_ul_data m /\
  Z.land ul_cmd_st 0xFF = ul_cmd_st mod 256 /\
  Z.land ul_cmd_sp 0xFF = ul_cmd_sp mod 256.
Proof.
  split.
  - unfold efc_perform_read_sequence. now rewrite !fcr_word_low_byte.
  - change 0xFF with (Z.ones 8). rewrite !Z.land_ones by lia.
    split; reflexivity.
Qed.

(** X8: the same read sequence made twice reads the same.  When the
    buffer does not overlap the source and a call has returned, a second
    call with the same start and stop commands, buffer, count and source
    that returns leaves memory exactly as the first call left it: the
    first call has not disturbed the words the second one loads. *)
Theorem read_sequence_twice (h : component_efc) (fuel1 fuel2 : nat)
  (ul_cmd_st ul_cmd_sp p_ul_buf ul_size p_ul_data : Z) (m m1 m2 : machine)
  (rc1 rc2 : Z) :
  p_ul_buf <> NULL ->
  0 <= ul_size < 2 ^ 32 ->
  separate p_ul_buf p_ul_data ul_size ->
  efc_perform_read_sequence h fuel1 ul_cmd_st ul_cmd_sp p_ul_buf ul_size
                            p_ul_data m = Returned rc1 m1 ->
  efc_perform_read_sequence h fuel2 ul_cmd_st ul_cmd_sp p_ul_buf ul_size
                            p_ul_data m1 = Returned rc2 m2 ->
  forall a, mem m2 a = mem m1 a.
Proof.
  intros Hbuf Hsize Hsep Hrun1 Hrun2 a.
  destruct (read_sequence_returned_inv h ul_cmd_st ul_cmd_sp p_ul_buf ul_size
              p_ul_data fuel1 m m1 rc1 Hbuf Hsize Hrun1)
    as (j1 & j2 & _ & _ & _ & _ & _ & _ & ->).
  destruct (read_sequence_returned_inv h ul_cmd_st ul_cmd_sp p_ul_buf ul_size
              p_ul_data fuel2 _ m2 rc2 Hbuf Hsize Hrun2)
    as (j3 & j4 & _ & _ & _ & _ & _ & _ & ->).
  set (m1 := read_sequence_done h ul_cmd_st ul_cmd_sp p_ul_buf ul_size
                                p_ul_data j1 j2 m).
  destruct (read_sequence_done_fields h ul_cmd_st ul_cmd_sp p_ul_buf ul_size
              p_ul_data j1 j2 m) as (_ & _ & _ & _ & (vs & _ & _ & _ & Hc1)).
  destruct (read_sequence_done_fields h ul_cmd_st ul_cmd_sp p_ul_buf ul_size
              p_ul_data j3 j4 m1)
    as (_ & _ & _ & _ & (vs' & _ & _ & _ & Hc2)).
  destruct (Hc1 Hsep) as (_ & Hbuf1). destruct (Hc2 Hsep) as (_ & Hbuf2).
  fold m1 in Hbuf1.
  destruct (Z.eq_dec ((a - p_ul_buf) mod 4) 0) as [Hal|Hal];
    [destruct (Z_le_dec 0 ((a - p_ul_buf) / 4)) as [Hlo|Hlo];
     [destruct (Z_lt_dec ((a - p_ul_buf) / 4) ul_size) as [Hhi|Hhi]|]|].
  - replace a with (p_ul_buf + 4 * ((a - p_ul_buf) / 4))
      by (Z.div_mod_to_equations; lia).
    rewrite Hbuf2, Hbuf1 by lia.
    apply read_sequence_done_frame. intros i Hi. unfold separate in Hsep.
    Z.div_mod_to_equations. lia.
  - apply read_sequence_done_frame. intros i Hi ->. apply Hhi.
    Z.div_mod_to_equations. lia.
  - apply read_sequence_done_frame. intros i Hi ->. apply Hlo.
    Z.div_mod_to_equations. lia.
  - apply read_sequence_done_frame. intros i Hi ->. apply Hal.
    Z.div_mod_to_equations. lia.
Qed.

(** X9: the read sequence returns exactly when the controller lets FRDY
    fall and then rise.  With a buffer given and a [uint32_t] count,
    some budget makes the call return if and only if the controller
    presents, from the call on, FRDY set for some polls, then clear, and
    later set again; there is no other way out of the two loops. *)
Theorem read_sequence_returns_iff_edges (h : component_efc)
  (ul_cmd_st ul_cmd_sp p_ul_buf ul_size p_ul_data : Z) (m : machine) :
  p_ul_buf <> NULL ->
  0 <= ul_size < 2 ^ 32 ->
  ((exists fuel rc m',
      efc_perform_read_sequence h fuel ul_cmd_st ul_cmd_sp p_ul_buf ul_size
                                p_ul_data m = Returned rc m')
   <->
   (exists j1 j2, falls_after h m j1 /\
                  rises_after h (after_polls (S j1) m) j2)).
Proof.
  intros Hbuf Hsize. split.
  - intros (fuel & rc & m' & Hrun).
    destruct (read_sequence_returned_inv h ul_cmd_st ul_cmd_sp p_ul_buf
                ul_size p_ul_data fuel m m' rc Hbuf Hsize Hrun)
      as (j1 & j2 & _ & _ & _ & Hf & Hr & _).
    exists j1, j2. split; assumption.
  - intros (j1 & j2 & Hf & Hr).
    exists (S (j1 + j2 + Z.to_nat ul_size)), EFC_RC_OK. eexists.
    apply (read_sequence_returns h ul_cmd_st ul_cmd_sp p_ul_buf ul_size
             p_ul_data _ j1 j2 m Hbuf Hsize Hf Hr); lia.
Qed.

(** ** Extra properties of [efc_perform_fcr] *)

(** X10: [efc_perform_fcr] returns exactly when the controller sets
    FRDY.  Some budget makes the call return if and only if some status
    read after the command has FRDY set; error flags alone never end
    the wait.  If FRDY is never set the call is, for every budget,
    still reading the Status register, the command word written. *)
Theorem perform_fcr_returns_iff_ready (h : component_efc) (ul_fcr : Z)
  (m : machine) :
  ((exists fuel r m', efc_perform_fcr h fuel ul_fcr m = Returned r m')
   <-> (exists j, frdy h (EEFC_FSR m (polls m + j)%nat) = true)) /\
  ((forall k, frdy h (EEFC_FSR m (polls m + k)%nat) = false) ->
   forall fuel, exists m',
     efc_perform_fcr h fuel ul_fcr m = Running m' /\
     polls m' = (polls m + fuel)%nat /\
     EEFC_FCR m' = ul_fcr).
Proof.
  split; [split|].
  - intros (fuel & r & m' & Hrun).
    apply perform_fcr_returned in Hrun.
    destruct Hrun as (j & _ & [_ Ha] & _). exists j. exact Ha.
  - intros (j & Hj). rewrite <- negb_false_true in Hj.
    exists (S j).
    destruct (do_while_cases (fun s => negb (frdy h s)) (S j)
                (command_issued ul_fcr m))
      as [(j' & _ & _ & _ & E) | (Hall & _)].
    + rewrite perform_fcr_unfold, E. eexists. eexists. reflexivity.
    + specialize (Hall j ltac:(lia)). cbn in Hall.
      rewrite Hall in Hj. discriminate Hj.
  - intros Hbusy fuel.
    exists (after_polls fuel (command_issued ul_fcr m)).
    destruct (after_polls_fields fuel (command_issued ul_fcr m))
      as (_ & P2 & _ & P4 & _).
    rewrite P2, P4. split; [|split; reflexivity].
    rewrite perform_fcr_unfold, do_while_stuck; [reflexivity|].
    intros k _. apply negb_true_false. apply Hbusy.
Qed.

(** X11: the value [efc_perform_fcr] returns has no bit outside the
    error mask: masking it again changes nothing, and when the three
    flags are non-negative masks the value lies between 0 and
    [EEFC_ERROR_FLAGS]. *)
Theorem perform_fcr_result_within_mask (h : component_efc) (fuel : nat)
  (ul_fcr : Z) (m m' : machine) (r : Z) :
  efc_perform_fcr h fuel ul_fcr m = Returned r m' ->
  Z.land r (EEFC_ERROR_FLAGS h) = r /\
  (0 <= EEFC_ERROR_FLAGS h -> 0 <= r <= EEFC_ERROR_FLAGS h).
Proof.
  intro Hrun. apply perform_fcr_returned in Hrun.
  destruct Hrun as (j & _ & _ & -> & _). split.
  - rewrite <- Z.land_assoc, Z.land_diag. reflexivity.
  - intro Hmask. apply Z.ldiff_le; [exact Hmask|].
    apply Z.bits_inj'. intros i Hi.
    rewrite Z.ldiff_spec, Z.land_spec, Z.bits_0.
    destruct (Z.testbit (EEFC_ERROR_FLAGS h) i);
      [apply andb_false_r | now rewrite andb_false_r].
Qed.

(** ** Command codes *)

Lemma fcr_word_injective (h : component_efc) (c1 c2 : Z) :
  0 <= c1 <= 0xFF -> 0 <= c2 <= 0xFF ->
  fcr_word h c1 = fcr_word h c2 -> c1 = c2.
Proof.
  intros H1 H2 E. apply (f_equal fcr_cmd) in E.
  destruct (fcr_word_fields h c1) as (_ & _ & E1).
  destruct (fcr_word_fields h c2) as (_ & _ & E2).
  rewrite E1, E2, !land_0xFF_small in E by assumption. exact E.
Qed.

Lemma NoDup_map_on {A B : Type} (f : A -> B) (l : list A) :
  (forall x y, In x l -> In y l -> f x = f y -> x = y) ->
  NoDup l -> NoDup (map f l).
Proof.
  intros Hinj Hnd. induction Hnd as [|x l Hx Hnd IH]; cbn [map].
  - constructor.
  - constructor.
    + rewrite in_map_iff. intros (y & E & Hy).
      apply Hinj in E; [subst y; contradiction | now right | now left].
    + apply IH. intros a b Ha Hb. apply Hinj; now right.
Qed.

(** X12: the command word keeps the command code.  For codes in
    0 .. 0xFF the code is read back from the word built for it, under
    the key, so two such codes with the same word are the same code.
    Each of the twenty command codes of efc.h is in that range, and no
    two of them share a command word. *)
Theorem efc_fcmd_codes_encode (h : component_efc) :
  (forall c1 c2, 0 <= c1 <= 0xFF -> 0 <= c2 <= 0xFF ->
                 fcr_word h c1 = fcr_word h c2 -> c1 = c2) /\
  Forall (fun c => 0 <= c <= 0xFF /\
                   fcr_cmd (fcr_word h c) = c /\
                   fcr_key (fcr_word h c) = FWP_KEY) efc_fcmd_codes /\
  NoDup (map (fcr_word h) efc_fcmd_codes).
Proof.
  assert (Hrange : Forall (fun c => 0 <= c <= 0xFF) efc_fcmd_codes).
  { unfold efc_fcmd_codes. repeat constructor; discriminate. }
  split; [apply fcr_word_injective|]. split.
  - eapply Forall_impl; [|exact Hrange]. intros c Hc.
    destruct (fcr_word_fields h c) as (K & _ & C).
    split; [exact Hc|]. split; [|exact K].
    rewrite C. now apply land_0xFF_small.
  - apply NoDup_map_on.
    + intros c1 c2 H1 H2. rewrite Forall_forall in Hrange.
      apply fcr_word_injective; auto.
    + unfold efc_fcmd_codes.
      repeat (constructor; [cbv; intuition discriminate|]). constructor.
Qed.

(** ** The copy between the two commands *)

Lemma entry_reads_no_mem (h : component_efc) (ul_cmd_st : Z) (m : machine)
  (j : nat) :
  existsb is_mem (entry_log h ul_cmd_st m ++ status_reads m j) = false /\
  fcr_writes (entry_log h ul_cmd_st m ++ status_reads m j)
  = [fcr_word h ul_cmd_st].
Proof.
  rewrite existsb_app, fcr_writes_app, status_reads_no_mem,
    status_reads_no_fcr.
  split; reflexivity.
Qed.

(** X13: memory is accessed only inside the read mode.  With a buffer
    given, whatever the budget and the outcome, the accesses of the
    call are a first part without memory access that holds the start
    command and no other, then the loads and stores of the copy, then a
    last part without memory access that holds at most the stop
    command.  If anything was copied, the first part ends with the
    Status read that showed FRDY clear for the first time. *)
Theorem read_sequence_copy_between_commands (h : component_efc)
  (fuel : nat) (ul_cmd_st ul_cmd_sp p_ul_buf ul_size p_ul_data : Z)
  (m : machine) :
  p_ul_buf <> NULL ->
  exists pre lc post,
    bus (machine_of (efc_perform_read_sequence h fuel ul_cmd_st ul_cmd_sp
                       p_ul_buf ul_size p_ul_data m))
    = bus m ++ pre ++ lc ++ post /\
    existsb is_mem pre = false /\
    existsb is_mem post = false /\
    Forall (copy_access p_ul_buf ul_size p_ul_data) lc /\
    fcr_writes pre = [fcr_word h ul_cmd_st] /\
    (fcr_writes post = [] \/ fcr_writes post = [fcr_word h ul_cmd_sp]) /\
    (lc <> [] ->
     exists j1, falls_after h m j1 /\
                pre = entry_log h ul_cmd_st m ++ status_reads m (S j1)).
Proof.
  intro Hbuf. rewrite read_sequence_unfold by exact Hbuf.
  destruct (start_issued_fields h ul_cmd_st m) as (_ & _ & A3 & A4 & _).
  destruct (do_while_cases (frdy h) fuel (start_issued h ul_cmd_st m))
    as [(j1 & Hj1 & Hb1 & Ha1 & E1) | (_ & E1)]; rewrite E1.
  - rewrite A3, A4 in Hb1, Ha1.
    destruct (for_copy_any p_ul_buf ul_size p_ul_data fuel 0
                (after_polls (S j1) (start_issued h ul_cmd_st m))
                ltac:(lia)) as (F1 & _ & F3 & F4 & (lc & F6 & Hlc) & _).
    destruct (entry_reads_no_mem h ul_cmd_st m (S j1)) as (Hpm & Hpw).
    exists (entry_log h ul_cmd_st m ++ status_reads m (S j1)), lc.
    assert (Hfall : lc <> [] ->
              exists j, falls_after h m j /\
                entry_log h ul_cmd_st m ++ status_reads m (S j1) =
                entry_log h ul_cmd_st m ++ status_reads m (S j)).
    { intros _. exists j1. split; [split; assumption | reflexivity]. }
    destruct (for_copy fuel p_ul_buf ul_size p_ul_data 0
                (after_polls (S j1) (start_issued h ul_cmd_st m)))
      as [[] m3|m3]; cbn [machine_of] in *.
    + destruct (do_while_machine (fun s => negb (frdy h s)) fuel
                  (stop_issued h ul_cmd_sp m3)) as (b & _ & Eb).
      destruct (stages_fields h ul_cmd_st ul_cmd_sp (S j1) b lc m m3
                  F1 F3 F4 F6)
        as (_ & (_ & _ & _ & K4) & (_ & _ & _ & _ & _ & L6)).
      destruct (do_while_FSR fuel _ (stop_issued h ul_cmd_sp m3))
        as [v' m5|m5]; cbn [machine_of] in *; subst m5.
      * exists (RegWrite FCR (fcr_word h ul_cmd_sp)
                :: status_reads (after_polls (S j1) m) b ++ exit_log m).
        split; [rewrite L6, <- !app_assoc; reflexivity|].
        split; [exact Hpm|]. split.
        { cbn [existsb is_mem orb].
          now rewrite existsb_app, status_reads_no_mem. }
        split; [exact Hlc|]. split; [exact Hpw|]. split; [|exact Hfall].
        right. cbn [fcr_writes].
        now rewrite fcr_writes_app, status_reads_no_fcr.
      * exists (RegWrite FCR (fcr_word h ul_cmd_sp)
                :: status_reads (after_polls (S j1) m) b).
        split; [rewrite K4, <- !app_assoc; reflexivity|].
        split; [exact Hpm|]. split.
        { cbn [existsb is_mem orb]. apply status_reads_no_mem. }
        split; [exact Hlc|]. split; [exact Hpw|]. split; [|exact Hfall].
        right. cbn [fcr_writes]. now rewrite status_reads_no_fcr.
    + destruct (stages_fields h ul_cmd_st ul_cmd_sp (S j1) 0 lc m m3
                  F1 F3 F4 F6) as ((_ & _ & _ & _ & G5) & _ & _).
      exists []. rewrite app_nil_r.
      split; [rewrite F6, G5, <- !app_assoc; reflexivity|].
      split; [exact Hpm|]. split; [reflexivity|].
      split; [exact Hlc|]. split; [exact Hpw|]. split; [now left|].
      exact Hfall.
  - destruct (stages_fields h ul_cmd_st ul_cmd_sp fuel 0 [] m
                (after_polls fuel (start_issued h ul_cmd_st m)))
      as ((_ & _ & _ & _ & G5) & _ & _); auto using app_nil_r.
    destruct (entry_reads_no_mem h ul_cmd_st m fuel) as (Hpm & Hpw).
    exists (entry_log h ul_cmd_st m ++ status_reads m fuel), [], [].
    cbn [machine_of]. rewrite !app_nil_r.
    split; [exact G5|]. split; [exact Hpm|]. split; [reflexivity|].
    split; [constructor|]. split; [exact Hpw|]. split; [now left|].
    intro Hne. now contradiction Hne.
Qed.

(** ** The further properties at work on the SAM4 *)

(** Reading no word of the unique identifier returns and leaves memory
    alone. *)
Lemma read_sequence_zero_words_witness :
  exists m',
    efc_perform_read_sequence sam4 8 EFC_FCMD_STUI EFC_FCMD_SPUI ram_buffer
                              0 read_window (idle 0 responsive)
    = Returned EFC_RC_OK m' /\
    mem m' = flash_window.
Proof.
  destruct (read_sequence_zero_words sam4 8 0 1 EFC_FCMD_STUI EFC_FCMD_SPUI
              ram_buffer read_window (idle 0 responsive) ram_buffer_not_null
              responsive_falls responsive_rises ltac:(lia) ltac:(lia))
    as (m' & Hrun & Hmem & _).
  exists m'. split; [exact Hrun | exact Hmem].
Defined.

(** A buffer two words below the read window, overlapping it, receives
    the four words of the window. *)
Lemma read_sequence_buffer_below_source_witness :
  exists m',
    efc_perform_read_sequence sam4 8 EFC_FCMD_STUI EFC_FCMD_SPUI
                              (read_window - 8) 4 read_window
                              (idle 0 responsive)
    = Returned EFC_RC_OK m' /\
    forall i, 0 <= i < 4 ->
      mem m' (read_window - 8 + 4 * i) = flash_window (read_window + 4 * i).
Proof.
  destruct (read_sequence_buffer_below_source sam4 8 0 1 EFC_FCMD_STUI
              EFC_FCMD_SPUI (read_window - 8) 4 read_window
              (idle 0 responsive))
    as (m' & Hrun & Hmem);
    [ unfold read_window, NULL; lia | lia | lia | exact responsive_falls
    | exact responsive_rises | lia | lia | simpl; lia | ].
  exists m'. split; [exact Hrun | exact Hmem].
Defined.

(** A buffer one word above the read window ends up holding the first
    word of the window four times. *)
Lemma read_sequence_buffer_above_source_witness :
  exists m',
    efc_perform_read_sequence sam4 8 EFC_FCMD_STUI EFC_FCMD_SPUI
                              (read_window + 4 * 1) 4 read_window
                              (idle 0 responsive)
    = Returned EFC_RC_OK m' /\
    forall i, 0 <= i < 4 -> mem m' (read_window + 4 * 1 + 4 * i) = 0x11.
Proof.
  destruct (read_sequence_buffer_above_source sam4 8 0 1 EFC_FCMD_STUI
              EFC_FCMD_SPUI 4 read_window 1 (idle 0 responsive))
    as (m' & Hrun & Hmem);
    [ unfold read_window, NULL; lia | lia | lia | exact responsive_falls
    | exact responsive_rises | lia | lia | simpl; lia | ].
  exists m'. split; [exact Hrun|].
  intros i Hi. rewrite (Hmem i Hi), Z.mod_1_r. reflexivity.
Defined.

(** When FRDY never falls the Mode register is left with bit 16 set. *)
Lemma read_sequence_hang_keeps_read_mode_witness :
  Z.testbit (EEFC_FMR (machine_of (read_unique_id (idle 0 always_ready)))) 16
  = true.
Proof.
  refine (proj2 (read_sequence_hang_keeps_read_mode sam4 8 EFC_FCMD_STUI
                   EFC_FCMD_SPUI ram_buffer 4 read_window
                   (idle 0 always_ready)
                   (machine_of (read_unique_id (idle 0 always_ready)))
                   ram_buffer_not_null _)).
  vm_compute. reflexivity.
Defined.

(** The wait-state bits of the Mode register survive the call. *)
Lemma read_sequence_mode_other_bits_witness :
  Z.testbit
    (EEFC_FMR (machine_of (efc_perform_read_sequence sam4 8 EFC_FCMD_STUI
                             EFC_FCMD_SPUI ram_buffer 4 read_window
                             (idle 0x600 responsive)))) 9
  = Z.testbit (EEFC_FMR (idle 0x600 responsive)) 9.
Proof.
  exact (read_sequence_mode_other_bits sam4 8 EFC_FCMD_STUI EFC_FCMD_SPUI
           ram_buffer 4 read_window (idle 0x600 responsive) 9
           ltac:(lia) ltac:(lia)).
Defined.

(** Error flags raised beside FRDY change nothing of the read. *)
Lemma read_sequence_ignores_error_flags_witness :
  exists m2',
    efc_perform_read_sequence sam4 8 EFC_FCMD_STUI EFC_FCMD_SPUI ram_buffer
                              4 read_window (idle 0 responsive_with_errors)
    = Returned EFC_RC_OK m2' /\
    mem m2' = mem (machine_of (read_unique_id (idle 0 responsive))).
Proof.
  destruct (read_sequence_ignores_error_flags sam4 8 EFC_FCMD_STUI
              EFC_FCMD_SPUI ram_buffer 4 read_window (idle 0 responsive)
              (idle 0 responsive_with_errors)
              (machine_of (read_unique_id (idle 0 responsive))) EFC_RC_OK)
    as (m2' & Hrun & _ & Hmem & _).
  - exact ram_buffer_not_null.
  - lia.
  - reflexivity.
  - reflexivity.
  - intros [|[|k]]; reflexivity.
  - vm_compute. reflexivity.
  - exists m2'. split; [exact Hrun | exact Hmem].
Defined.

(** Reading the unique identifier a second time leaves the first buffer
    word as the first read left it. *)
Lemma read_sequence_twice_witness :
  mem (machine_of (read_unique_id
                     (machine_of (read_unique_id
                                    (idle 0 responsive_twice))))) ram_buffer
  = mem (machine_of (read_unique_id (idle 0 responsive_twice))) ram_buffer.
Proof.
  refine (read_sequence_twice sam4 8 8 EFC_FCMD_STUI EFC_FCMD_SPUI
            ram_buffer 4 read_window
            (idle 0 responsive_twice)
            (machine_of (read_unique_id (idle 0 responsive_twice)))
            (machine_of (read_unique_id
                           (machine_of (read_unique_id
                                          (idle 0 responsive_twice)))))
            EFC_RC_OK EFC_RC_OK ram_buffer_not_null _ _ _ _ ram_buffer).
  - lia.
  - unfold separate, ram_buffer, read_window. lia.
  - vm_compute. reflexivity.
  - vm_compute. reflexivity.
Defined.

(** The responsive controller lets the read return for some budget. *)
Lemma read_sequence_returns_iff_edges_witness :
  exists fuel rc m',
    efc_perform_read_sequence sam4 fuel EFC_FCMD_STUI EFC_FCMD_SPUI
                              ram_buffer 4 read_window (idle 0 responsive)
    = Returned rc m'.
Proof.
  apply (proj2 (read_sequence_returns_iff_edges sam4 EFC_FCMD_STUI
                  EFC_FCMD_SPUI ram_buffer 4 read_window (idle 0 responsive)
                  ram_buffer_not_null ltac:(lia))).
  exists 0%nat, 1%nat. split; [exact responsive_falls | exact responsive_rises].
Defined.

(** The lock error returned lies within the mask 14 of the SAM4. *)
Lemma perform_fcr_result_within_mask_witness :
  Z.land 4 (EEFC_ERROR_FLAGS sam4) = 4 /\ 0 <= 4 <= EEFC_ERROR_FLAGS sam4.
Proof.
  destruct (perform_fcr_result_within_mask sam4 8 set_lock_bit_1
              (idle 0 lock_error)
              (machine_of (efc_perform_fcr sam4 8 set_lock_bit_1
                             (idle 0 lock_error))) 4)
    as [Hsub Hbound].
  - vm_compute. reflexivity.
  - split; [exact Hsub|]. apply Hbound. vm_compute. discriminate.
Defined.

(** The accesses of reading the unique identifier split around the
    copy. *)
Lemma read_sequence_copy_between_commands_witness :
  exists pre lc post,
    bus (machine_of (efc_perform_read_sequence sam4 8 EFC_FCMD_STUI
                       EFC_FCMD_SPUI ram_buffer 4 read_window
                       (idle 0 responsive)))
    = bus (idle 0 responsive) ++ pre ++ lc ++ post /\
    existsb is_mem pre = false /\ existsb is_mem post = false.
Proof.
  destruct (read_sequence_copy_between_commands sam4 8 EFC_FCMD_STUI
              EFC_FCMD_SPUI ram_buffer 4 read_window (idle 0 responsive)
              ram_buffer_not_null)
    as (pre & lc & post & Hbus & Hpre & Hpost & _).
  exists pre, lc, post. split; [exact Hbus|]. split; assumption.
Defined.

(** ** The Mode bit when it was set before the call *)

(** X14: the read sequence does not save the Mode register.  After
    every call that returns [EFC_RC_OK] bit 16 of the Mode register is
    clear whatever it was before the call; for a 32-bit register value
    the Mode register is afterwards what it was before exactly when bit
    16 was clear before, so a bit that was set before the call has been
    cleared, not restored. *)
Theorem read_sequence_mode_bit_not_saved (h : component_efc) (fuel : nat)
  (ul_cmd_st ul_cmd_sp p_ul_buf ul_size p_ul_data : Z) (m m' : machine) :
  efc_perform_read_sequence h fuel ul_cmd_st ul_cmd_sp p_ul_buf ul_size
                            p_ul_data m = Returned EFC_RC_OK m' ->
  Z.testbit (EEFC_FMR m') 16 = false /\
  (0 <= EEFC_FMR m < 2 ^ 32 ->
   (EEFC_FMR m' = EEFC_FMR m <-> Z.testbit (EEFC_FMR m) 16 = false)) /\
  (Z.testbit (EEFC_FMR m) 16 = true -> EEFC_FMR m' <> EEFC_FMR m).
Proof.
  intro Hrun.
  destruct (read_sequence_returned_mode h fuel ul_cmd_st ul_cmd_sp p_ul_buf
              ul_size p_ul_data m m' Hrun) as (Hfmr & _).
  assert (Hbit : forall i, 0 <= i ->
            Z.testbit (EEFC_FMR m') i =
            if i =? 16 then false else Z.testbit (EEFC_FMR m) i && (i <? 32)).
  { intros i Hi. rewrite Hfmr. now apply mode_bit_set_then_cleared. }
  assert (H16 : Z.testbit (EEFC_FMR m') 16 = false)
    by (now rewrite Hbit by lia).
  split; [exact H16|]. split.
  - intro Hrange. split.
    + intro E. now rewrite <- E.
    + intro Hclear. apply Z.bits_inj'. intros i Hi. rewrite Hbit by exact Hi.
      destruct (Z.eqb_spec i 16) as [->|Hne]; [now rewrite Hclear|].
      destruct (Z.ltb_spec i 32).
      * apply andb_true_r.
      * rewrite andb_false_r. symmetry. now apply uint32_high_bits.
  - intros Hset E. rewrite E, Hset in H16. discriminate H16.
Qed.

(** With the Mode register 0x10000 before the call, the call returns
    and leaves it 0. *)
Lemma read_sequence_mode_bit_not_saved_witness :
  Z.testbit (EEFC_FMR (machine_of (read_unique_id (idle 0x10000
                                                       responsive)))) 16
  = false /\
  EEFC_FMR (machine_of (read_unique_id (idle 0x10000 responsive))) <>
  EEFC_FMR (idle 0x10000 responsive).
Proof.
  destruct (read_sequence_mode_bit_not_saved sam4 8 EFC_FCMD_STUI
              EFC_FCMD_SPUI ram_buffer 4 read_window
              (idle 0x10000 responsive)
              (machine_of (read_unique_id (idle 0x10000 responsive))))
    as (Hclear & _ & Hdiff).
  - vm_compute. reflexivity.
  - split; [exact Hclear|]. apply Hdiff. reflexivity.
Defined.
